(** * Figure layering of deephaven.plot.express: a shallow embedding

    This development embeds [plots/_private_utils.py] and checks the
    properties stated for it.

    Modelling conventions.
    - Python exceptions are values of [exn]; a computation that may raise
      is a [result].  A [for] loop is a fold in that monad, so the first
      exception ends the loop, as in Python.
    - Mutation in place is explicit state passing: a function that
      updates its argument returns the updated object.
    - A [dict] whose iteration order is never observed (a trace, an axis
      object, the axis remapping, the keyword arguments, a domain box) is
      a [gmap string _].  The figure layout is iterated by [resize], which
      numbers the axes in iteration order, so it is an insertion-ordered
      association list ([odict]).
    - Python numbers (int and float alike) are exact rationals [Qc];
      rounding of floats is not modelled.  The statements below are
      about the exception that is raised, about shapes, keys and
      entries, and about a number only where it is given by the very
      expression the code evaluates; none of them rests on an identity
      of exact arithmetic that rounding breaks.  Division by zero
      raises, as it does in Python for both int and float. *)

From Stdlib Require Import QArith Qcanon.
From stdpp Require Import base strings list gmap numbers pretty.

Set Default Proof Using "Type".
#[local] Set Warnings "-register-all,-clear-no-such-hyp".
#[local] Open Scope string_scope.
#[local] Open Scope list_scope.
#[local] Open Scope stdpp_scope.

(** ** Exceptions and the error monad *)

Inductive exn :=
| KeyError
| ValueError
| TypeError
| IndexError
| ZeroDivisionError
| NotImplementedError.

#[global] Instance exn_eq_dec : EqDecision exn.
Proof. solve_decision. Defined.

Inductive result (A : Type) :=
| Ok (a : A)
| Raise (e : exn).
Arguments Ok {A} a.
Arguments Raise {A} e.

#[global] Instance result_ret : MRet result := λ A a, Ok a.
#[global] Instance result_bind : MBind result := λ A B f m,
  match m with
  | Ok a => f a
  | Raise e => Raise e
  end.
#[global] Instance result_fmap : FMap result := λ A B f m,
  match m with
  | Ok a => Ok (f a)
  | Raise e => Raise e
  end.

(** [try: m except e => h]: the handler runs only for the exception [e];
    any other exception propagates. *)
Definition try_except {A} (m : result A) (e : exn) (h : result A) : result A :=
  match m with
  | Ok a => Ok a
  | Raise e' => if decide (e' = e) then h else Raise e'
  end.

(** A [for] loop whose body may raise, threading the loop state. *)
Fixpoint for_each {A S} (body : S → A → result S) (xs : list A) (s : S)
  : result S :=
  match xs with
  | [] => Ok s
  | x :: xs' => s' ← body s x; for_each body xs' s'
  end.

(** ** Python values *)

Inductive value :=
| VNone
| VBool (b : bool)
| VNum (q : Qc)
| VStr (s : string)
| VList (l : list value)
| VDict (d : gmap string value).

(** The operand of an arithmetic operator: [bool] is a subclass of [int];
    anything else that is not a number raises [TypeError]. *)
Definition as_num (v : value) : result Qc :=
  match v with
  | VNum q => Ok q
  | VBool b => Ok (if b then 1 else 0)%Qc
  | _ => Raise TypeError
  end.

(** [l[i]] on a list *)
Definition index {A} (l : list A) (i : nat) : result A :=
  match l !! i with
  | Some a => Ok a
  | None => Raise IndexError
  end.

(** [v[i]] with an integer index on a value *)
Definition subscript_int (v : value) (i : nat) : result value :=
  match v with
  | VList l => index l i
  | VStr s =>
      match String.get i s with
      | Some c => Ok (VStr (String c EmptyString))
      | None => Raise IndexError
      end
  | VDict _ => Raise KeyError
  | _ => Raise TypeError
  end.

(** [v[k]] with a string key on a value *)
Definition subscript (v : value) (k : string) : result value :=
  match v with
  | VDict d =>
      match d !! k with
      | Some x => Ok x
      | None => Raise KeyError
      end
  | _ => Raise TypeError
  end.

(** [k in v] for a string [k]: key test on a dict, element test on a
    list, substring test on a string; other values are not containers. *)
Definition is_VStr (k : string) (v : value) : bool :=
  match v with VStr s => bool_decide (s = k) | _ => false end.

Definition is_substring (k s : string) : bool :=
  match String.index 0 k s with Some _ => true | None => false end.

Definition contains (v : value) (k : string) : result bool :=
  match v with
  | VDict d => Ok (bool_decide (is_Some (d !! k)))
  | VList l => Ok (existsb (is_VStr k) l)
  | VStr s => Ok (is_substring k s)
  | _ => Raise TypeError
  end.

(** Truthiness of an optional list, as in [if new_domain_x:] where the
    value came from [dict.get(_, None)]. *)
Definition truthy {A} (o : option (list A)) : bool :=
  match o with
  | Some (_ :: _) => true
  | _ => false
  end.

(** ** Domain mapper *)

Definition default_callback {A} (fig : A) : A := fig.

Definition normalize_position (position chart_start chart_range : Qc)
  : result Qc :=
  if decide (chart_range = 0%Qc) then Raise ZeroDivisionError
  else Ok ((position - chart_start) / chart_range)%Qc.

(** The body of the loop of [get_new_positions].  The operand
    [position] is checked by the subtraction inside [normalize_position],
    before the division. *)
Definition new_position (new_domain chart_domain : list Qc) (new_range : Qc)
    (position : value) : result Qc :=
  cd1 ← index chart_domain 1;
  cd0 ← index chart_domain 0;
  let chart_range := (cd1 - cd0)%Qc in
  cs ← index chart_domain 0;
  p ← as_num position;
  normalized ← normalize_position p cs chart_range;
  nd0 ← index new_domain 0;
  Ok (nd0 + normalized * new_range)%Qc.

Definition get_new_positions (new_domain : list Qc) (positions : value)
    (chart_domain : list Qc) : result value :=
  let positions :=
    match positions with
    | VList l => l
    | p => [p]
    end in
  nd1 ← index new_domain 1;
  nd0 ← index new_domain 0;
  let new_range := (nd1 - nd0)%Qc in
  new_positions ←
    for_each (λ acc position,
                np ← new_position new_domain chart_domain new_range position;
                Ok (acc ++ [VNum np]))
             positions [];
  Ok (VList new_positions).

(** ** Dictionaries

    [odict] is a Python dict with its insertion order: [oset] keeps the
    position of a key that is already present and appends a new one,
    [opop] is [dict.pop(k)] without a default, [oupdate] is
    [dict.update]. *)

Abbreviation odict V := (list (string * V)).

Definition okeys {V} (d : odict V) : list string := d.*1.

Fixpoint oget {V} (k : string) (d : odict V) : option V :=
  match d with
  | [] => None
  | (k', v) :: d' => if decide (k' = k) then Some v else oget k d'
  end.

Fixpoint oset {V} (k : string) (v : V) (d : odict V) : odict V :=
  match d with
  | [] => [(k, v)]
  | (k', v') :: d' =>
      if decide (k' = k) then (k, v) :: d' else (k', v') :: oset k v d'
  end.

Definition odel {V} (k : string) (d : odict V) : odict V :=
  filter (λ kv, kv.1 ≠ k) d.

Definition opop {V} (k : string) (d : odict V) : result (odict V) :=
  match oget k d with
  | Some _ => Ok (odel k d)
  | None => Raise KeyError
  end.

Definition oupdate {V} (d other : odict V) : odict V :=
  foldl (λ acc kv, oset kv.1 kv.2 acc) d other.

(** A trace and an axis object are dicts; a domain box maps ["x"] and
    ["y"] to a list of two numbers; the remapping sends an old trace
    reference to the new one. *)
Abbreviation pydict := (gmap string value).
Abbreviation domain_box := (gmap string (list Qc)).
Abbreviation remapping := (gmap string string).

(** [v] used where the code needs a dict: [v["domain"]] is the first
    thing done to it, and raises [TypeError] when [v] is a list, a
    string, a number or [None]. *)
Definition as_dict (v : value) : result pydict :=
  match v with
  | VDict d => Ok d
  | _ => Raise TypeError
  end.

(** [axes_remapping[v]]: a list or a dict is not hashable. *)
Definition remap_lookup (axes_remapping : remapping) (v : value)
  : result string :=
  match v with
  | VStr s =>
      match axes_remapping !! s with
      | Some new => Ok new
      | None => Raise KeyError
      end
  | VList _ | VDict _ => Raise TypeError
  | _ => Raise KeyError
  end.

(** [v in axes_remapping] *)
Definition remap_contains (axes_remapping : remapping) (v : value)
  : result bool :=
  match v with
  | VStr s => Ok (bool_decide (is_Some (axes_remapping !! s)))
  | VList _ | VDict _ => Raise TypeError
  | _ => Ok false
  end.

(** ** Domain resizer *)

Definition resize_domain (obj : pydict) (new_domain : domain_box)
  : result pydict :=
  let new_domain_x := new_domain !! "x" in
  let new_domain_y := new_domain !! "y" in
  d ← subscript (VDict obj) "domain";
  obj_domain_x ← subscript d "x";
  d ← subscript (VDict obj) "domain";
  obj_domain_y ← subscript d "y";
  try_except
    (domain_update ←
       (if truthy new_domain_x then
          x ← get_new_positions (default [] new_domain_x) obj_domain_x [0; 1]%Qc;
          Ok (<["x" := x]> (∅ : pydict))
        else Ok ∅);
     domain_update ←
       (if truthy new_domain_y then
          y ← get_new_positions (default [] new_domain_y) obj_domain_y [0; 1]%Qc;
          Ok (<["y" := y]> domain_update)
        else Ok domain_update);
     if decide (size domain_update = 0) then Ok obj
     else Ok (<["domain" := VDict domain_update]> obj))
    ValueError (Ok obj).

(** [axis_position is not None] for [axis_position = axis.get("position", None)] *)
Definition is_not_None (o : option value) : bool :=
  match o with
  | None | Some VNone => false
  | Some _ => true
  end.

(** One branch of [resize_xy_axis]: [along] is the domain of the axis's
    own dimension, [across] the orthogonal one. *)
Definition xy_axis_update (along across : option (list Qc))
    (axis_domain : value) (axis_position : option value) : result pydict :=
  axis_update ←
    (if truthy along then
       d ← get_new_positions (default [] along) axis_domain [0; 1]%Qc;
       Ok (<["domain" := d]> (∅ : pydict))
     else Ok ∅);
  if truthy across && is_not_None axis_position then
    ps ← get_new_positions (default [] across) (default VNone axis_position)
           [0; 1]%Qc;
    p ← subscript_int ps 0;
    Ok (<["position" := p]> axis_update)
  else Ok axis_update.

Definition resize_xy_axis (axis : pydict) (new_domain : domain_box)
    (which : string) : result pydict :=
  let new_domain_x := new_domain !! "x" in
  let new_domain_y := new_domain !! "y" in
  axis_domain ← subscript (VDict axis) "domain";
  let axis_position := axis !! "position" in
  try_except
    (axis_update ←
       (if decide (which = "x") then
          xy_axis_update new_domain_x new_domain_y axis_domain axis_position
        else
          xy_axis_update new_domain_y new_domain_x axis_domain axis_position);
     Ok (axis_update ∪ axis))
    ValueError (Ok axis).

(** ** Axis reindexer *)

Definition reassign_field (field : string) (axes_remapping : remapping)
    (trace : pydict) : result pydict :=
  match trace !! field with
  | Some old =>
      new ← remap_lookup axes_remapping old;
      Ok (<[field := VStr new]> trace)
  | None => Ok trace
  end.

Definition reassign_axes (trace : pydict) (axes_remapping : remapping)
  : result pydict :=
  trace ← reassign_field "xaxis" axes_remapping trace;
  trace ← reassign_field "yaxis" axes_remapping trace;
  trace ← reassign_field "scene" axes_remapping trace;
  trace ← reassign_field "subplot" axes_remapping trace;
  reassign_field "ternary" axes_remapping trace.

(** [axis.update(attr=...)]: only reached after [axis[attr]] succeeded,
    that is for a dict. *)
Definition reassign_attribute (attr : string) (axes_remapping : remapping)
    (axis : value) : result value :=
  has ← contains axis attr;
  if has : bool then
    a ← subscript axis attr;
    known ← remap_contains axes_remapping a;
    if known : bool then
      new ← remap_lookup axes_remapping a;
      d ← as_dict axis;
      Ok (VDict (<[attr := VStr new]> d))
    else Ok axis
  else Ok axis.

Definition reassign_attributes (axis : value) (axes_remapping : remapping)
  : result value :=
  axis ← reassign_attribute "anchor" axes_remapping axis;
  reassign_attribute "overlaying" axes_remapping axis.

(** [s.startswith(prefix)] *)
Fixpoint startswith (s prefix : string) {struct prefix} : bool :=
  match prefix with
  | EmptyString => true
  | String a prefix' =>
      match s with
      | EmptyString => false
      | String b s' => Ascii.eqb a b && startswith s' prefix'
      end
  end.

(** [s.replace(old, new)] for a non-empty [old]: every occurrence, left
    to right, without overlap.  [skip] counts the characters of a matched
    occurrence that are still to be dropped. *)
Fixpoint replace_go (old new : string) (skip : nat) (s : string) : string :=
  match s with
  | EmptyString => EmptyString
  | String c s' =>
      match skip with
      | S n => replace_go old new n s'
      | O =>
          if startswith s old
          then new +:+ replace_go old new (String.length old - 1) s'
          else String c (replace_go old new 0 s')
      end
  end.

Definition str_replace (old new s : string) : string := replace_go old new 0 s.

(** The five axis families, the [type_] of the code. *)
Inductive family := Xaxis | Yaxis | Scene | Polar | Ternary.

#[global] Instance family_eq_dec : EqDecision family.
Proof. solve_decision. Defined.

Definition family_name (type_ : family) : string :=
  match type_ with
  | Xaxis => "xaxis"
  | Yaxis => "yaxis"
  | Scene => "scene"
  | Polar => "polar"
  | Ternary => "ternary"
  end.

(** [which = type_[0]] for the two families of 2-D axes. *)
Definition which_of (type_ : family) : option string :=
  match type_ with
  | Xaxis => Some "x"
  | Yaxis => Some "y"
  | _ => None
  end.

(** The name a trace uses for the axis [type_ num]. *)
Definition trace_axis_name (type_ : family) (num : string) : string :=
  match which_of type_ with
  | Some which => which +:+ num
  | None => family_name type_ +:+ num
  end.

Definition resize_axis (type_ : family) (old_axis : string) (axis : pydict)
    (num : string) (new_domain : domain_box)
  : result (pydict * (string * string * string)) :=
  let new_axis := family_name type_ +:+ num in
  match which_of type_ with
  | Some which =>
      axis ← resize_xy_axis axis new_domain which;
      let old_trace_axis := str_replace (family_name type_) which old_axis in
      Ok (axis, (new_axis, old_trace_axis, which +:+ num))
  | None =>
      axis ← resize_domain axis new_domain;
      Ok (axis, (new_axis, old_axis, new_axis))
  end.

(** The chain of [k.startswith(...)] tests of [resize]. *)
Definition classify (k : string) : option family :=
  if startswith k "xaxis" then Some Xaxis
  else if startswith k "yaxis" then Some Yaxis
  else if startswith k "scene" then Some Scene
  else if startswith k "polar" then Some Polar
  else if startswith k "ternary" then Some Ternary
  else None.

(** [new_axes_start]: the next free number of every family.  The code
    keeps it in a dict with exactly these five keys. *)
Record axes_start := AxesStart {
  start_xaxis : Z;
  start_yaxis : Z;
  start_scene : Z;
  start_polar : Z;
  start_ternary : Z
}.

Definition start_of (type_ : family) (c : axes_start) : Z :=
  match type_ with
  | Xaxis => start_xaxis c
  | Yaxis => start_yaxis c
  | Scene => start_scene c
  | Polar => start_polar c
  | Ternary => start_ternary c
  end.

(** [new_axes_start[type_] += 1] *)
Definition bump (type_ : family) (c : axes_start) : axes_start :=
  match type_ with
  | Xaxis => AxesStart (start_xaxis c + 1) (start_yaxis c) (start_scene c)
               (start_polar c) (start_ternary c)
  | Yaxis => AxesStart (start_xaxis c) (start_yaxis c + 1) (start_scene c)
               (start_polar c) (start_ternary c)
  | Scene => AxesStart (start_xaxis c) (start_yaxis c) (start_scene c + 1)
               (start_polar c) (start_ternary c)
  | Polar => AxesStart (start_xaxis c) (start_yaxis c) (start_scene c)
               (start_polar c + 1) (start_ternary c)
  | Ternary => AxesStart (start_xaxis c) (start_yaxis c) (start_scene c)
               (start_polar c) (start_ternary c + 1)
  end.

(** [num = "" if new_axes_start[type_] == 1 else new_axes_start[type_]],
    as it is formatted into [f"{type_}{num}"]. *)
Definition axis_num (n : Z) : string :=
  if decide (n = 1%Z) then "" else pretty n.

(** The variables of the first loop of [resize]. *)
Record resize_state := ResizeState {
  axes_remapping : remapping;
  new_axes : odict value;
  old_axes : list string;
  new_axes_start : axes_start
}.

Definition resize_step (new_domain : domain_box) (st : resize_state)
    (kv : string * value) : result resize_state :=
  let '(k, v) := kv in
  match classify k with
  | Some type_ =>
      let num := axis_num (start_of type_ (new_axes_start st)) in
      let start := bump type_ (new_axes_start st) in
      let old := old_axes st ++ [k] in
      axis ← as_dict v;
      '(axis, (new_axis, old_trace_axis, new_trace_axis)) ←
        resize_axis type_ k axis num new_domain;
      Ok (ResizeState (<[old_trace_axis := new_trace_axis]> (axes_remapping st))
            (oset new_axis (VDict axis) (new_axes st)) old start)
  | None => Ok st
  end.

(** The body of the loop over the traces. *)
Definition resize_trace (new_domain : domain_box) (remap : remapping)
    (trace : pydict) : result pydict :=
  trace ← reassign_axes trace remap;
  if decide (is_Some (trace !! "domain")) then resize_domain trace new_domain
  else Ok trace.

(** A loop that updates every element of a list in place. *)
Fixpoint update_each {A} (f : A → result A) (xs : list A) : result (list A) :=
  match xs with
  | [] => Ok []
  | x :: xs' => y ← f x; ys ← update_each f xs'; Ok (y :: ys)
  end.

Definition resize (fig_data : list pydict) (fig_layout : odict value)
    (new_domain : domain_box) (start : axes_start)
  : result (list pydict * odict value * axes_start) :=
  if decide (new_domain = ∅) then Ok (fig_data, fig_layout, start)
  else
    st ← for_each (resize_step new_domain) fig_layout
           (ResizeState ∅ [] [] start);
    fig_layout ← for_each (λ l axis, opop axis l) (old_axes st) fig_layout;
    let fig_layout := oupdate fig_layout (new_axes st) in
    fig_data ← update_each (resize_trace new_domain (axes_remapping st)) fig_data;
    fig_layout ←
      update_each (λ kv : string * value,
                     axis ← reassign_attributes kv.2 (axes_remapping st);
                     Ok (kv.1, axis))
                  fig_layout;
    Ok (fig_data, fig_layout, new_axes_start st).

(** ** Figure layering engine *)

(** A plotly figure: its traces and its layout. *)
Record Figure := MkFigure {
  data : list pydict;
  layout : odict value
}.

Section Layering.

(** The data mappings are opaque to the engine. *)
Context {DataMapping : Type}.

(** Modelled from the spec: the class [DeephavenFigure] (the composite
    figure of the spec) is declared in [deephaven_figure], outside this
    file.  The record holds the wrapped chart, the data mappings and the
    three flags, which are the fields the engine reads. *)
Record DeephavenFigure := MkDeephavenFigure {
  fig : Figure;
  data_mappings : list DataMapping;
  has_template : bool;
  has_color : bool;
  has_subplots : bool
}.

(** [arg.copy_mappings(offset=offset)], a method of that class, stays a
    parameter. *)
Context (copy_mappings : DeephavenFigure → nat → list DataMapping).

(** What [layer] may be handed: [isinstance(arg, Figure)],
    [isinstance(arg, DeephavenFigure)], or anything else. *)
Inductive arg :=
| ArgFigure (f : Figure)
| ArgDeephaven (d : DeephavenFigure)
| ArgOther.

(** [not which_layout]: [None] and [0] are both falsy. *)
Definition not_which_layout (which_layout : option Z) : bool :=
  match which_layout with
  | None => true
  | Some n => bool_decide (n = 0%Z)
  end.

(** [which_layout == i] *)
Definition which_layout_is (which_layout : option Z) (i : nat) : bool :=
  match which_layout with
  | None => false
  | Some n => bool_decide (n = Z.of_nat i)
  end.

Definition fig_data_and_layout (fig : Figure) (i : nat)
    (domains : option (list domain_box)) (which_layout : option Z)
    (start : axes_start)
  : result (list pydict * odict value * axes_start) :=
  match domains with
  | Some ((_ :: _) as domains) =>
      new_domain ← index domains i;
      resize (data fig) (layout fig) new_domain start
  | _ =>
      let fig_layout :=
        if not_which_layout which_layout || which_layout_is which_layout i
        then oupdate [] (layout fig)
        else [] in
      Ok (data fig, fig_layout, start)
  end.

(** The variables of the loop of [layer]. *)
Record layer_state := LayerState {
  new_data : list pydict;
  new_layout : odict value;
  new_data_mappings : list DataMapping;
  new_has_template : bool;
  new_has_color : bool;
  layer_axes_start : axes_start
}.

Definition layer_step (which_layout : option Z)
    (domains : option (list domain_box)) (i : nat) (a : arg)
    (st : layer_state) : result layer_state :=
  match a with
  | ArgFigure f =>
      '(fig_data, fig_layout, start) ←
        fig_data_and_layout f i domains which_layout (layer_axes_start st);
      Ok (LayerState (new_data st ++ fig_data)
            (oupdate (new_layout st) fig_layout)
            (new_data_mappings st) (new_has_template st) (new_has_color st)
            start)
  | ArgDeephaven d =>
      let offset := length (new_data st) in
      if has_subplots d then Raise NotImplementedError
      else
        '(fig_data, fig_layout, start) ←
          fig_data_and_layout (fig d) i domains which_layout
            (layer_axes_start st);
        Ok (LayerState (new_data st ++ fig_data)
              (oupdate (new_layout st) fig_layout)
              (new_data_mappings st ++ copy_mappings d offset)
              (has_template d || new_has_template st)
              (has_color d || new_has_color st)
              start)
  | ArgOther => Raise TypeError
  end.

(** [for i, arg in enumerate(args)] *)
Fixpoint layer_loop (which_layout : option Z)
    (domains : option (list domain_box)) (i : nat) (args : list arg)
    (st : layer_state) : result layer_state :=
  match args with
  | [] => Ok st
  | a :: args' =>
      st' ← layer_step which_layout domains i a st;
      layer_loop which_layout domains (S i) args' st'
  end.

Definition initial_axes_start : axes_start := AxesStart 1 1 1 1 1.

Definition layer (args : list arg) (which_layout : option Z)
    (domains : option (list domain_box)) (unsafe_update : Figure → Figure)
  : result DeephavenFigure :=
  if decide (length args = 0) then Raise ValueError
  else
    st ← layer_loop which_layout domains 0 args
           (LayerState [] [] [] false false initial_axes_start);
    let new_fig := MkFigure (new_data st) (new_layout st) in
    let new_fig := unsafe_update new_fig in
    Ok (MkDeephavenFigure new_fig (new_data_mappings st)
          (new_has_template st) (new_has_color st) true).

End Layering.

Arguments DeephavenFigure : clear implicits.
Arguments arg : clear implicits.
Arguments layer_state : clear implicits.

(** ** Argument validators *)

Definition scene_args : list string :=
  ["range_x"; "range_y"; "range_z"; "log_x"; "log_y"; "log_z"].

(** [args[arg + '_scene'] = args.pop(arg)] for every name in turn.  The
    dict is updated in place, so the caller sees the state reached when
    [pop] raises; the function returns that state together with the
    exception, if any. *)
Fixpoint remap_scene_loop (names : list string) (args : pydict)
  : pydict * option exn :=
  match names with
  | [] => (args, None)
  | a :: names' =>
      match args !! a with
      | Some v => remap_scene_loop names' (<[a +:+ "_scene" := v]> (delete a args))
      | None => (args, Some KeyError)
      end
  end.

Definition remap_scene_args (args : pydict) : pydict * option exn :=
  remap_scene_loop scene_args args.

(** ** Legend and titles *)

(** Truthiness of an optional name, as in [if list_var_axis_name:]:
    [None] and the empty string are false. *)
Definition truthy_name (name : option string) : bool :=
  match name with
  | Some (String _ _) => true
  | _ => false
  end.

(** [layout_update[key] = name] under [if name:] *)
Definition set_title (key : string) (name : option string)
    (layout_update : pydict) : pydict :=
  if truthy_name name then <[key := VStr (default "" name)]> layout_update
  else layout_update.

(** The dict [layout_update] that [update_legend_and_titles] builds, as
    it stands when it is handed to [update_layout]. *)
Definition layout_update (var : string) (is_list : bool)
    (list_var_axis_name list_val_axis_name
     str_var_axis_name str_val_axis_name : option string) : pydict :=
  let other_var := if decide (var = "x") then "y" else "x" in
  if is_list then
    let layout_update :=
      <["legend_tracegroupgap" := VNum 0%Qc]>
        (<["legend_title_text" := VStr "variable"]> ∅) in
    let layout_update :=
      set_title (var +:+ "axis_title_text") list_var_axis_name layout_update in
    set_title (other_var +:+ "axis_title_text") list_val_axis_name layout_update
  else
    let layout_update := <["showlegend" := VBool false]> ∅ in
    let layout_update :=
      set_title (var +:+ "axis_title_text") str_var_axis_name layout_update in
    set_title (other_var +:+ "axis_title_text") str_val_axis_name layout_update.

(** ** Definitions used to state the properties *)

(** The shape of a position argument or result: a scalar, or a sequence
    of a given length. *)
Inductive shape :=
| Scalar
| Sequence (n : nat).

Definition shape_of (v : value) : shape :=
  match v with
  | VList l => Sequence (length l)
  | _ => Scalar
  end.

(** The number of positions [get_new_positions] maps. *)
Definition position_count (positions : value) : nat :=
  match positions with
  | VList l => length l
  | _ => 1
  end.

(** The five trace fields that [reassign_axes] rewrites. *)
Definition trace_fields : list string :=
  ["xaxis"; "yaxis"; "scene"; "subplot"; "ternary"].

(** The layout key of the axis numbered [n] in its family. *)
Definition new_axis_name (tn : family * Z) : string :=
  family_name tn.1 +:+ axis_num tn.2.

(** The family and number that the first loop of [resize] gives to every
    axis key of a layout, in the order of the keys, and the counters it
    leaves behind. *)
Fixpoint numbering (start : axes_start) (keys : list string)
  : list (family * Z) :=
  match keys with
  | [] => []
  | k :: keys' =>
      match classify k with
      | Some type_ =>
          (type_, start_of type_ start) :: numbering (bump type_ start) keys'
      | None => numbering start keys'
      end
  end.

Fixpoint start_after (start : axes_start) (keys : list string) : axes_start :=
  match keys with
  | [] => start
  | k :: keys' =>
      match classify k with
      | Some type_ => start_after (bump type_ start) keys'
      | None => start_after start keys'
      end
  end.

Definition of_family (type_ : family) (l : list (family * Z))
  : list (family * Z) :=
  filter (λ tn, tn.1 = type_) l.

(** The data mappings a composition must carry: every wrapped figure's
    mappings, copied with the number of traces that precede its own in
    the composite list.  A plain figure has traces and no mappings. *)
Definition arg_traces {DataMapping} (a : arg DataMapping) : nat :=
  match a with
  | ArgFigure f => length (data f)
  | ArgDeephaven d => length (data (fig d))
  | ArgOther => 0
  end.

Fixpoint offset_mappings {DataMapping}
    (copy_mappings : DeephavenFigure DataMapping → nat → list DataMapping)
    (offset : nat) (args : list (arg DataMapping)) : list DataMapping :=
  match args with
  | [] => []
  | a :: args' =>
      match a with
      | ArgDeephaven d => copy_mappings d offset
      | _ => []
      end ++ offset_mappings copy_mappings (offset + arg_traces a) args'
  end.

(** An input that [layer] accepts: a figure, or a wrapped figure without
    subplots. *)
Definition accepted {DataMapping} (a : arg DataMapping) : Prop :=
  match a with
  | ArgFigure _ => True
  | ArgDeephaven d => has_subplots d = false
  | ArgOther => False
  end.

Definition initial_layer_state {DataMapping} : layer_state DataMapping :=
  LayerState [] [] [] false false initial_axes_start.

(** [args'] is [args] with every name of [names] renamed: the name is
    gone, its value is stored under the suffixed name, and an entry
    whose key is neither a name nor a suffixed name is as it was. *)
Definition suffixed (a : string) : string := a +:+ "_scene".

Definition renames (names : list string) (args args' : pydict) : Prop :=
  (∀ a, a ∈ names → args' !! a = None ∧ args' !! suffixed a = args !! a)
  ∧ (∀ k, k ∉ names → k ∉ suffixed <$> names → args' !! k = args !! k).

Definition has_all (names : list string) (args : pydict) : Prop :=
  ∀ a, a ∈ names → is_Some (args !! a).

(** The figure that [layer] processes for an input, if it accepts it. *)
Definition arg_figure {DataMapping} (a : arg DataMapping) : option Figure :=
  match a with
  | ArgFigure f => Some f
  | ArgDeephaven d => if has_subplots d then None else Some (fig d)
  | ArgOther => None
  end.

(** Examples *)

Definition half : Qc := Q2Qc (1 # 2).
Definition unit_interval : value := VList [VNum 0%Qc; VNum 1%Qc].

(** An object whose domain holds both ranges, and a box with ["x"] only. *)
Definition domain_xy : pydict :=
  <["x" := unit_interval]> {[ "y" := VList [VNum half; VNum 1%Qc] ]}.
Definition obj_xy : pydict := {[ "domain" := VDict domain_xy ]}.
Definition box_x : domain_box := {[ "x" := [0%Qc; half] ]}.
Definition box_x_right : domain_box := {[ "x" := [half; 1%Qc] ]}.

(** A figure with one x/y pair of axes and one trace drawn against it. *)
Definition xy_axis (anchor : string) : value :=
  VDict (<["domain" := unit_interval]> {[ "anchor" := VStr anchor ]}).
Definition xy_trace : pydict :=
  <["xaxis" := VStr "x"]> {[ "yaxis" := VStr "y" ]}.
Definition xy_figure : Figure :=
  MkFigure [xy_trace] [("xaxis", xy_axis "y"); ("yaxis", xy_axis "x")].

(** Two figures whose layouts have different keys. *)
Definition titled_figure : Figure :=
  MkFigure [xy_trace] [("title", VStr "first")].
Definition barmode_figure : Figure :=
  MkFigure [xy_trace] [("barmode", VStr "group")].

(** Keyword arguments holding the six scene names, and one more entry
    already stored under a suffixed name. *)
Definition six_args : pydict :=
  <["range_x" := unit_interval]> (<["range_y" := VList [VNum 0%Qc; VNum half]]>
  (<["range_z" := VNone]> (<["log_x" := VBool false]>
  (<["log_y" := VBool false]> {[ "log_z" := VBool true ]})))).
Definition seven_args : pydict :=
  <["range_x_scene" := VNone]> six_args.

(** Wrapped figures with three and two traces, and one with subplots.
    A data mapping is represented by the trace index it refers to. *)
Definition three_traces : DeephavenFigure nat :=
  MkDeephavenFigure (MkFigure [xy_trace; xy_trace; xy_trace] [])
    [0; 1; 2] false false false.
Definition two_traces : DeephavenFigure nat :=
  MkDeephavenFigure (MkFigure [xy_trace; xy_trace] []) [0; 1] true false false.
Definition with_subplots : DeephavenFigure nat :=
  MkDeephavenFigure xy_figure [] false false true.

(** Modelled from the spec: copying the mappings of a figure re-expresses
    their trace indices under an additive offset. *)
Definition shift_mappings (d : DeephavenFigure nat) (offset : nat) : list nat :=
  (λ i, i + offset) <$> data_mappings d.

(** ** Definitions used to state further properties *)


(** The number of layout keys of one family. *)
Definition family_count (type_ : family) (keys : list string) : nat :=
  length (filter (λ k, classify k = Some type_) keys).

(** A domain box with one number where two are needed. *)
Definition short_box : domain_box := {[ "x" := [half] ]}.

(** An axis object with a title and no position. *)
Definition titled_axis : pydict :=
  <["title" := VStr "t"]> {[ "domain" := unit_interval ]}.

(** The traces, the layout and the flags that an input brings. *)
Definition arg_data {DataMapping} (a : arg DataMapping) : list pydict :=
  match a with
  | ArgFigure f => data f
  | ArgDeephaven d => data (fig d)
  | ArgOther => []
  end.

Definition arg_layout {DataMapping} (a : arg DataMapping) : odict value :=
  match a with
  | ArgFigure f => layout f
  | ArgDeephaven d => layout (fig d)
  | ArgOther => []
  end.

Definition arg_has_template {DataMapping} (a : arg DataMapping) : bool :=
  match a with
  | ArgDeephaven d => has_template d
  | _ => false
  end.

Definition arg_has_color {DataMapping} (a : arg DataMapping) : bool :=
  match a with
  | ArgDeephaven d => has_color d
  | _ => false
  end.

(** The layout keys of one axis family, in the order of the layout; all
    layout keys of the inputs of a composition, in the order of the
    inputs; and the keys [type_], [type_2], ..., [type_n]. *)
Definition axis_keys (type_ : family) (keys : list string) : list string :=
  filter (λ k, classify k = Some type_) keys.

Definition composition_keys {DataMapping} (args : list (arg DataMapping))
  : list string :=
  concat ((λ a, okeys (arg_layout a)) <$> args).

Definition numbered_keys (type_ : family) (n : nat) : list string :=
  new_axis_name <$> (pair type_ <$> seqZ 1 (Z.of_nat n)).

(** A figure whose x axis carries a high number. *)
Definition high_figure : Figure :=
  MkFigure [<["xaxis" := VStr "x7"]> {[ "yaxis" := VStr "y" ]}]
    [("xaxis7", xy_axis "y"); ("yaxis", xy_axis "x7")].



(** A wrapped figure with a template, and a figure with a title and a
    bar mode. *)
Definition templated : DeephavenFigure nat :=
  MkDeephavenFigure titled_figure [0] true false false.

(** The layout entries that are no axes, in the order of the layout. *)
Definition unclassified (fig_layout : odict value) : odict value :=
  filter (λ kv, classify kv.1 = None) fig_layout.

(** The axes of a layout, in the order of the layout, each with the
    family and the number that the first loop of [resize] gives it. *)
Fixpoint numbered_axes (start : axes_start) (fig_layout : odict value)
  : list (family * Z * value) :=
  match fig_layout with
  | [] => []
  | (k, v) :: fig_layout' =>
      match classify k with
      | Some type_ =>
          (type_, start_of type_ start, v)
            :: numbered_axes (bump type_ start) fig_layout'
      | None => numbered_axes start fig_layout'
      end
  end.

(** The axis that the first loop of [resize] stores for a numbered axis. *)
Definition resized_axis (new_domain : domain_box)
    (tnv : family * Z * value) (kv : string * value) : Prop :=
  kv.1 = new_axis_name tnv.1
  ∧ ∃ (d d1 : pydict) old num names,
      tnv.2 = VDict d
      ∧ resize_axis tnv.1.1 old d num new_domain = Ok (d1, names)
      ∧ kv.2 = VDict d1.

(** [d'] is [d] except under the keys [fields]. *)
Definition same_but (fields : list string) (d d' : pydict) : Prop :=
  ∀ g, g ∉ fields → d' !! g = d !! g.

(** The two attributes that [reassign_attributes] rewrites, and what it
    may do to a layout entry: a dict changes under these two only, where
    the value ["free"] stays; any other value stays as it is. *)
Definition attributes : list string := ["anchor"; "overlaying"].

Definition keeps_free (d d' : pydict) : Prop :=
  ∀ attr, attr ∈ attributes →
          d !! attr = Some (VStr "free") → d' !! attr = Some (VStr "free").

Definition kept_entry (v v' : value) : Prop :=
  match v with
  | VDict d => ∃ d', v' = VDict d' ∧ same_but attributes d d' ∧ keeps_free d d'
  | _ => v' = v
  end.

(** What [resize] may do to an axis: it stays a dict, changes under
    ["domain"], ["position"] and the two attributes only, and an
    attribute that is ["free"] stays so. *)
Definition moved_axis (v v' : value) : Prop :=
  ∃ d d' : pydict,
    v = VDict d ∧ v' = VDict d'
    ∧ same_but ("domain" :: "position" :: attributes) d d'
    ∧ keeps_free d d'.

(** [None], a boolean or a number: a value that is no container. *)
Definition scalar (v : value) : bool :=
  match v with
  | VNone | VBool _ | VNum _ => true
  | _ => false
  end.

(** A figure with a title and a second x axis that is anchored nowhere,
    and a figure whose layout has a boolean entry. *)
Definition free_figure : Figure :=
  MkFigure [xy_trace]
    [("xaxis", xy_axis "y"); ("title", VDict {[ "text" := VStr "t" ]});
     ("yaxis", xy_axis "x"); ("xaxis2", xy_axis "free")].
Definition legend_figure : Figure :=
  MkFigure [xy_trace]
    [("xaxis", xy_axis "y"); ("yaxis", xy_axis "x");
     ("showlegend", VBool true)].

(** The axis that is not [var], and the title that a name gives. *)
Definition other_var (var : string) : string :=
  if decide (var = "x") then "y" else "x".

Definition title_of (name : option string) : option value :=
  if truthy_name name then VStr <$> name else None.

(** ** Proof automation *)

(** Case analysis on the innermost scrutinee of a monadic computation
    that is known to return. *)
Ltac destruct_inner H :=
  unfold try_except, mbind, result_bind in H;
  repeat match type of H with
         | context [match ?x with _ => _ end] =>
             lazymatch x with
             | context [match _ with _ => _ end] => fail
             | _ => destruct x eqn:?; simpl in H; try discriminate
             end
         end.

(** Compares [var +:+ s] with a literal, character by character. *)
Ltac peel H var :=
  repeat (destruct var as [|? var]; simpl in H;
          [try discriminate H|first [discriminate H|injection H as ? H]]).

(** * Properties *)

(** ** Domain mapper *)

Lemma for_each_length {A B} (body : list B → A → result (list B))
    (xs : list A) (acc out : list B) :
  (∀ acc x out, body acc x = Ok out → length out = S (length acc)) →
  for_each body xs acc = Ok out →
  length out = length acc + length xs.
Proof.
  intros Hbody. revert acc. induction xs as [|x xs IH]; intros acc; simpl.
  - intros [= <-]. lia.
  - destruct (body acc x) as [acc'|e] eqn:Hx; simpl; [|discriminate].
    intros H. apply IH in H. apply Hbody in Hx. lia.
Qed.

Lemma normalize_position_zero position chart_start :
  normalize_position position chart_start 0 = Raise ZeroDivisionError.
Proof. unfold normalize_position. by rewrite decide_True. Qed.

Lemma Qc_minus_diag (q : Qc) : (q - q = 0)%Qc.
Proof. ring. Qed.

Lemma new_position_zero_width nd lo cd new_range (p : Qc) :
  new_position nd (lo :: lo :: cd) new_range (VNum p) = Raise ZeroDivisionError.
Proof.
  unfold new_position. simpl.
  by rewrite Qc_minus_diag, normalize_position_zero.
Qed.

(** C6, as stated, fails: with a source domain of zero width the
    division raises [ZeroDivisionError], which is not the [ValueError]
    the code base uses for invalid arguments. *)
Lemma zero_width_is_not_ValueError :
  normalize_position 1 0 0 ≠ Raise ValueError
  ∧ get_new_positions [0; 1]%Qc (VNum 1%Qc) [0; 0]%Qc ≠ Raise ValueError.
Proof.
  split.
  - by rewrite normalize_position_zero.
  - unfold get_new_positions. cbn -[new_position].
    by rewrite new_position_zero_width.
Qed.

(** C6, amended: for every position and every source domain of zero
    width, [normalize_position] raises [ZeroDivisionError], and so does
    [get_new_positions] on a scalar position or on a list that starts
    with one; neither returns a number. *)
Theorem zero_width_domain_raises :
  (∀ position chart_start,
     normalize_position position chart_start 0 = Raise ZeroDivisionError)
  ∧ (∀ nd0 nd1 nd lo cd (p : Qc) rest,
       get_new_positions (nd0 :: nd1 :: nd) (VNum p) (lo :: lo :: cd)
         = Raise ZeroDivisionError
       ∧ get_new_positions (nd0 :: nd1 :: nd) (VList (VNum p :: rest))
           (lo :: lo :: cd)
         = Raise ZeroDivisionError).
Proof.
  split; [apply normalize_position_zero|].
  intros. unfold get_new_positions.
  split; cbn -[new_position]; by rewrite new_position_zero_width.
Qed.

(** C7, as stated, fails: a scalar position comes back as a list of one
    element, not as a scalar. *)
Lemma scalar_position_returns_list :
  ∃ r, get_new_positions [0; half]%Qc (VNum half) [0; 1]%Qc = Ok r
       ∧ shape_of r ≠ shape_of (VNum half).
Proof. eexists. split; [vm_compute; reflexivity|]. discriminate. Qed.

(** C7, amended: whatever [get_new_positions] returns is a list; it has
    as many elements as the input list, and one element for a scalar. *)
Theorem get_new_positions_shape new_domain positions chart_domain r :
  get_new_positions new_domain positions chart_domain = Ok r →
  shape_of r = Sequence (position_count positions).
Proof.
  unfold get_new_positions.
  destruct (index new_domain 1) as [nd1|]; simpl; [|discriminate].
  destruct (index new_domain 0) as [nd0|]; simpl; [|discriminate].
  match goal with
  | |- context [for_each ?f ?xs ?acc] =>
      destruct (for_each f xs acc) as [out|] eqn:Hloop
  end; simpl; [|discriminate].
  intros [= <-].
  apply for_each_length in Hloop.
  - simpl in *. rewrite Hloop. by destruct positions.
  - intros acc x out'.
    destruct (new_position _ _ _ x); simpl; [|discriminate].
    intros [= <-]. rewrite length_app. simpl. lia.
Qed.

Lemma get_new_positions_shape_witness :
  ∃ r, get_new_positions [0; half]%Qc (VNum half) [0; 1]%Qc = Ok r
       ∧ shape_of r = Sequence 1.
Proof.
  eexists. split; [vm_compute; reflexivity|].
  apply (get_new_positions_shape [0; half]%Qc (VNum half) [0; 1]%Qc).
  vm_compute. reflexivity.
Defined.

(** No step of [get_new_positions] raises [ValueError], so the
    [except ValueError] clauses of the resizers never run. *)
Lemma for_each_raise {A S} (body : S → A → result S) (xs : list A) (s : S)
    (e : exn) :
  (∀ s x, body s x ≠ Raise e) → for_each body xs s ≠ Raise e.
Proof.
  intros Hbody. revert s. induction xs as [|x xs IH]; intros s; simpl; [done|].
  destruct (body s x) as [s'|e'] eqn:Hx; simpl; [apply IH|].
  intros [= ->]. by apply Hbody in Hx.
Qed.

Lemma new_position_not_ValueError nd cd new_range position :
  new_position nd cd new_range position ≠ Raise ValueError.
Proof.
  unfold new_position, index, normalize_position, as_num.
  destruct (cd !! 1); simpl; [|done]. destruct (cd !! 0); simpl; [|done].
  destruct position; simpl; try done;
    case_decide; simpl; try done; by destruct (nd !! 0).
Qed.

Lemma get_new_positions_not_ValueError nd positions cd :
  get_new_positions nd positions cd ≠ Raise ValueError.
Proof.
  unfold get_new_positions, index.
  destruct (nd !! 1); simpl; [|done]. destruct (nd !! 0); simpl; [|done].
  match goal with
  | |- context [for_each ?f ?xs ?acc] =>
      pose proof (for_each_raise f xs acc ValueError) as Hloop;
      destruct (for_each f xs acc) as [out|e]
  end; simpl; [done|].
  intros [= ->]. apply Hloop; [|done].
  intros acc x. pose proof (new_position_not_ValueError nd cd (q - q0)%Qc x).
  destruct (new_position nd cd _ x); simpl; congruence.
Qed.

(** ** Domain resizer *)

(** C4: on an object whose domain holds both ranges and a box that
    supplies ["x"] only, [resize_domain] replaces the whole domain by a
    dict that holds the new ["x"] range alone: the ["y"] range of the
    object is dropped, not kept. *)
Theorem resize_domain_x_only_drops_y (obj d : pydict) (x y : value)
    (new_domain : domain_box) (new_domain_x : list Qc) (obj' : pydict) :
  obj !! "domain" = Some (VDict d) →
  d !! "x" = Some x →
  d !! "y" = Some y →
  new_domain !! "x" = Some new_domain_x →
  new_domain_x ≠ [] →
  new_domain !! "y" = None →
  resize_domain obj new_domain = Ok obj' →
  ∃ x' d', get_new_positions new_domain_x x [0; 1]%Qc = Ok x'
    ∧ obj' !! "domain" = Some (VDict d')
    ∧ d' !! "x" = Some x'
    ∧ d' !! "y" = None.
Proof.
  intros Hdom Hx Hy Hndx Hne Hndy.
  unfold resize_domain. cbn -[get_new_positions].
  rewrite Hdom, Hndx, Hndy. cbn -[get_new_positions]. rewrite Hx, Hy.
  cbn -[get_new_positions].
  destruct new_domain_x as [|a l]; [done|]. cbn -[get_new_positions].
  pose proof (get_new_positions_not_ValueError (a :: l) x [0; 1]%Qc) as Hnv.
  destruct (get_new_positions (a :: l) x [0; 1]%Qc) as [x'|e];
    cbn -[get_new_positions].
  - rewrite decide_False.
    2:{ rewrite map_size_insert_None by apply lookup_empty. lia. }
    intros [= <-]. exists x'. eexists. split; [done|].
    rewrite lookup_insert_eq. split; [done|].
    rewrite lookup_insert_eq. split; [done|].
    rewrite lookup_insert_ne by done. apply lookup_empty.
  - destruct (decide (e = ValueError)); [congruence|discriminate].
Qed.

Lemma resize_domain_x_only_drops_y_witness :
  ∃ obj' x' d', resize_domain obj_xy box_x = Ok obj'
    ∧ get_new_positions [0; half]%Qc unit_interval [0; 1]%Qc = Ok x'
    ∧ obj' !! "domain" = Some (VDict d')
    ∧ d' !! "x" = Some x'
    ∧ d' !! "y" = None.
Proof.
  assert (∃ obj', resize_domain obj_xy box_x = Ok obj') as [obj' Hobj]
    by (eexists; vm_compute; reflexivity).
  destruct (resize_domain_x_only_drops_y obj_xy domain_xy unit_interval
              (VList [VNum half; VNum 1%Qc]) box_x [0; half]%Qc obj')
    as (x' & d' & H); try (vm_compute; reflexivity); try done.
  by exists obj', x', d'.
Defined.

(** C5: on an object without a ["domain"] entry both resizers raise
    [KeyError]; the lookup is made before the [try], and the handler is
    for [ValueError] only. *)
Theorem missing_domain_raises_KeyError (obj : pydict)
    (new_domain : domain_box) (which : string) :
  obj !! "domain" = None →
  resize_domain obj new_domain = Raise KeyError
  ∧ resize_xy_axis obj new_domain which = Raise KeyError.
Proof.
  intros Hdom. unfold resize_domain, resize_xy_axis. simpl.
  by rewrite Hdom.
Qed.

Lemma missing_domain_raises_KeyError_witness :
  resize_domain ∅ box_x = Raise KeyError
  ∧ resize_xy_axis ∅ box_x "x" = Raise KeyError.
Proof.
  apply (missing_domain_raises_KeyError ∅ box_x "x"). reflexivity.
Defined.

(** ** Figure layering engine *)

Section LayeringProperties.

Context {DataMapping : Type}.
Context (copy_mappings : DeephavenFigure DataMapping → nat → list DataMapping).

Implicit Types (args : list (arg DataMapping)) (st : layer_state DataMapping).
Implicit Types (which_layout : option Z) (domains : option (list domain_box)).

(** [which_layout = 0] is falsy, so it selects the same branch as
    [which_layout = None]: every layout is merged. *)
Lemma which_layout_0_as_None args domains unsafe_update :
  layer copy_mappings args (Some 0%Z) domains unsafe_update
  = layer copy_mappings args None domains unsafe_update.
Proof.
  unfold layer. case_decide; [done|]. f_equal.
  generalize (LayerState (DataMapping:=DataMapping) [] [] [] false false
                initial_axes_start).
  generalize 0. clear. induction args as [|a args IH]; intros i st; simpl; [done|].
  assert (layer_step copy_mappings (Some 0%Z) domains i a st
          = layer_step copy_mappings None domains i a st) as ->.
  { unfold layer_step, fig_data_and_layout. by destruct a, domains as [[|]|]. }
  destruct (layer_step copy_mappings None domains i a st); simpl; [|done].
  apply IH.
Qed.

(** C1: evaluated on two figures with [which_layout = 0] and no
    domains, [layer] returns a layout that holds the key of the second
    figure next to the key of the first. *)
Theorem which_layout_0_keeps_later_layout :
  ∃ r, layer copy_mappings
         [ArgFigure titled_figure; ArgFigure barmode_figure]
         (Some 0%Z) None default_callback = Ok r
       ∧ okeys (layout (fig r)) = ["title"; "barmode"].
Proof. eexists. split; reflexivity. Qed.

Lemma layer_loop_app which_layout domains i pre post st :
  layer_loop copy_mappings which_layout domains i (pre ++ post) st
  = st' ← layer_loop copy_mappings which_layout domains i pre st;
    layer_loop copy_mappings which_layout domains (i + length pre) post st'.
Proof.
  revert i st. induction pre as [|a pre IH]; intros i st; simpl.
  - by rewrite Nat.add_0_r.
  - destruct (layer_step _ _ _ i a st); simpl; [|done].
    rewrite IH. by rewrite Nat.add_succ_r.
Qed.

(** C9: [layer] without figures raises [ValueError]; a wrapped figure
    with subplots raises [NotImplementedError], as soon as the loop
    reaches it, and no figure is returned. *)
Theorem layer_rejects (d : DeephavenFigure DataMapping) pre post
    which_layout domains unsafe_update :
  has_subplots d = true →
  layer copy_mappings [] which_layout domains unsafe_update
    = Raise ValueError
  ∧ layer copy_mappings (ArgDeephaven d :: post) which_layout domains
      unsafe_update
    = Raise NotImplementedError
  ∧ (∀ r, layer copy_mappings (pre ++ ArgDeephaven d :: post) which_layout
            domains unsafe_update ≠ Ok r)
  ∧ (∀ st, layer_loop copy_mappings which_layout domains 0 pre
             initial_layer_state = Ok st →
           layer copy_mappings (pre ++ ArgDeephaven d :: post) which_layout
             domains unsafe_update
           = Raise NotImplementedError).
Proof.
  intros Hsub. split; [done|]. split.
  { unfold layer. simpl. by rewrite Hsub. }
  assert (∀ st, layer_step copy_mappings which_layout domains (0 + length pre)
                  (ArgDeephaven d) st = Raise NotImplementedError) as Hstep.
  { intros st. simpl. by rewrite Hsub. }
  split.
  - intros r. unfold layer. case_decide; [done|].
    rewrite layer_loop_app.
    destruct (layer_loop _ _ _ 0 pre _) as [st|e]; simpl; [|done].
    by rewrite Hsub.
  - intros st Hpre. unfold layer. rewrite decide_False.
    2:{ rewrite length_app. simpl. lia. }
    rewrite layer_loop_app. unfold initial_layer_state in Hpre.
    rewrite Hpre. simpl. by rewrite Hsub.
Qed.

Lemma update_each_length {A} (f : A → result A) (xs ys : list A) :
  update_each f xs = Ok ys → length ys = length xs.
Proof.
  revert ys. induction xs as [|x xs IH]; intros ys; simpl.
  - by intros [= <-].
  - destruct (f x); simpl; [|done].
    destruct (update_each f xs); simpl; [|done].
    intros [= <-]. simpl. f_equal. by apply IH.
Qed.

Lemma resize_data_length fig_data fig_layout new_domain start
    fig_data' fig_layout' start' :
  resize fig_data fig_layout new_domain start
    = Ok (fig_data', fig_layout', start') →
  length fig_data' = length fig_data.
Proof.
  unfold resize. case_decide; [by intros [= <- _ _]|].
  destruct (for_each (resize_step _) _ _) as [st|]; simpl; [|done].
  destruct (for_each _ (old_axes st) _) as [l|]; simpl; [|done].
  destruct (update_each _ fig_data) as [ds|] eqn:Hd; simpl; [|done].
  destruct (update_each _ (oupdate _ _)) as [ls|]; simpl; [|done].
  intros [= <- _ _]. by eapply update_each_length.
Qed.

Lemma fig_data_and_layout_length f i domains which_layout start
    fig_data fig_layout start' :
  fig_data_and_layout f i domains which_layout start
    = Ok (fig_data, fig_layout, start') →
  length fig_data = length (data f).
Proof.
  unfold fig_data_and_layout. destruct domains as [[|nd ds]|].
  1,3: by intros [= <- _ _].
  destruct (index _ i); simpl; [|done]. apply resize_data_length.
Qed.

Lemma layer_loop_mappings which_layout domains i args st st' :
  layer_loop copy_mappings which_layout domains i args st = Ok st' →
  new_data_mappings st'
  = new_data_mappings st
    ++ offset_mappings copy_mappings (length (new_data st)) args.
Proof.
  revert i st. induction args as [|a args IH]; intros i st; simpl.
  - intros [= <-]. by rewrite app_nil_r.
  - destruct (layer_step _ _ _ i a st) as [st1|] eqn:Hstep; simpl; [|done].
    intros Hloop. apply IH in Hloop. rewrite Hloop. clear Hloop IH.
    destruct a as [f|d|]; simpl in Hstep; [| |done].
    + destruct (fig_data_and_layout f _ _ _ _) as [[[fd fl] c]|] eqn:Hf;
        simpl in Hstep; [|done].
      injection Hstep as <-. simpl. rewrite length_app.
      by rewrite (fig_data_and_layout_length _ _ _ _ _ _ _ _ Hf).
    + destruct (has_subplots d); [done|].
      destruct (fig_data_and_layout (fig d) _ _ _ _) as [[[fd fl] c]|] eqn:Hf;
        simpl in Hstep; [|done].
      injection Hstep as <-. simpl. rewrite length_app, <-(assoc_L (++)).
      by rewrite (fig_data_and_layout_length _ _ _ _ _ _ _ _ Hf).
Qed.

(** C8: the data mappings of the layered figure are the mappings of
    every wrapped input, each copied with the number of traces
    accumulated before that input. *)
Theorem layer_offsets_mappings args which_layout domains unsafe_update r :
  layer copy_mappings args which_layout domains unsafe_update = Ok r →
  data_mappings r = offset_mappings copy_mappings 0 args.
Proof.
  unfold layer. case_decide; [done|].
  destruct (layer_loop _ _ _ 0 args _) as [st|] eqn:Hloop; simpl; [|done].
  intros [= <-]. simpl. by apply layer_loop_mappings in Hloop.
Qed.

(** Without domains every accepted input is layered: the loop cannot
    raise. *)
Lemma layer_loop_total which_layout i args st :
  Forall accepted args →
  ∃ st', layer_loop copy_mappings which_layout None i args st = Ok st'.
Proof.
  intros Hargs. revert i st.
  induction Hargs as [|a args Ha _ IH]; intros i st; simpl; [by eexists|].
  destruct a as [f|d|]; simpl in *; [| |done].
  - apply IH.
  - rewrite Ha. simpl. apply IH.
Qed.

Lemma layer_total which_layout args unsafe_update :
  args ≠ [] → Forall accepted args →
  ∃ r, layer copy_mappings args which_layout None unsafe_update = Ok r.
Proof.
  intros Hne Hargs. unfold layer. rewrite decide_False by by destruct args.
  destruct (layer_loop_total which_layout 0 args
              (LayerState [] [] [] false false initial_axes_start) Hargs)
    as [st ->].
  simpl. by eexists.
Qed.

End LayeringProperties.

(** Two figures with one x/y pair each, placed side by side: the
    composite has four axes, the traces of the first figure refer to
    [x]/[y] and those of the second to [x2]/[y2]. *)
Example layer_side_by_side :
  ∃ r, layer shift_mappings [ArgFigure xy_figure; ArgFigure xy_figure] None
         (Some [box_x; box_x_right]) default_callback = Ok r
       ∧ okeys (layout (fig r)) = ["xaxis"; "yaxis"; "xaxis2"; "yaxis2"]
       ∧ (λ t : pydict, (t !! "xaxis", t !! "yaxis")) <$> data (fig r)
         = [(Some (VStr "x"), Some (VStr "y"));
            (Some (VStr "x2"), Some (VStr "y2"))]
       ∧ has_subplots r = true.
Proof. eexists. split; [vm_compute; reflexivity|]. by vm_compute. Qed.

Lemma layer_rejects_witness :
  layer shift_mappings [] None None default_callback = Raise ValueError
  ∧ layer shift_mappings [ArgDeephaven with_subplots] None None
      default_callback
    = Raise NotImplementedError.
Proof.
  destruct (layer_rejects shift_mappings with_subplots [] [] None None
              default_callback eq_refl) as (H1 & H2 & _).
  by split.
Defined.

Lemma layer_offsets_mappings_witness :
  ∃ r, layer shift_mappings
         [ArgDeephaven three_traces; ArgDeephaven two_traces]
         None None default_callback = Ok r
       ∧ data_mappings r = [0; 1; 2; 3; 4].
Proof.
  eexists. split; [reflexivity|].
  apply (layer_offsets_mappings shift_mappings
           [ArgDeephaven three_traces; ArgDeephaven two_traces]
           None None default_callback).
  reflexivity.
Defined.

(** ** Argument validators *)

Lemma remap_scene_loop_app pre post (args : pydict) :
  remap_scene_loop (pre ++ post) args
  = match remap_scene_loop pre args with
    | (args', None) => remap_scene_loop post args'
    | failed => failed
    end.
Proof.
  revert args. induction pre as [|a pre IH]; intros args; simpl; [done|].
  destruct (args !! a); [apply IH|done].
Qed.

Section Renaming.

(** What the renaming needs of the names: they are distinct, their
    suffixed forms are distinct, and no suffixed form is itself a name. *)
Context (names : list string).
Context (Hnames : NoDup names) (Hsuffixed : NoDup (suffixed <$> names)).
Context (Hapart : ∀ a b, a ∈ names → b ∈ names → suffixed a ≠ b).

Lemma remap_scene_loop_renames (done_ todo : list string) (args : pydict) :
  names = done_ ++ todo →
  has_all todo args →
  (remap_scene_loop todo args).2 = None
  ∧ renames todo args (remap_scene_loop todo args).1.
Proof using Hnames Hsuffixed Hapart.
  revert done_ args. induction todo as [|a todo IH]; intros done_ args Hsplit Hall.
  { split; [done|]. split; [by intros a ?%elem_of_nil|done]. }
  assert (a ∈ names) as Ha by (rewrite Hsplit; set_solver).
  assert (∀ b, b ∈ todo → b ∈ names) as Hin by (rewrite Hsplit; set_solver).
  assert (a ∉ todo) as Hfresh.
  { rewrite Hsplit in Hnames. apply NoDup_app in Hnames as (_ & _ & Hnd).
    by apply NoDup_cons in Hnd as [? _]. }
  assert (suffixed a ∉ suffixed <$> todo) as Hsfresh.
  { rewrite Hsplit, fmap_app in Hsuffixed.
    apply NoDup_app in Hsuffixed as (_ & _ & Hnd).
    rewrite fmap_cons in Hnd. by apply NoDup_cons in Hnd as [? _]. }
  destruct (Hall a) as [v Hv]; [set_solver|].
  simpl. rewrite Hv. fold (suffixed a).
  set (args1 := <[suffixed a := v]> (delete a args)).
  assert (∀ b, b ∈ todo → args1 !! b = args !! b) as Hsame.
  { intros b Hb. unfold args1.
    rewrite lookup_insert_ne by (apply Hapart; auto).
    apply lookup_delete_ne. by intros ->. }
  destruct (IH (done_ ++ [a]) args1) as (Hok & Hren & Hother).
  { by rewrite <-(assoc_L (++)). }
  { intros b Hb. rewrite Hsame by done. apply Hall. set_solver. }
  split; [done|]. split.
  - intros b [->|Hb]%elem_of_cons.
    + assert (suffixed a ≠ a) as Hne by (apply Hapart; auto).
      assert (a ∉ suffixed <$> todo) as Hb1.
      { intros (c & ? & ?)%list_elem_of_fmap. eapply (Hapart c a); auto. }
      assert (suffixed a ∉ todo) as Hb2.
      { intros ?%Hin. by eapply (Hapart a (suffixed a)). }
      rewrite !Hother by done. unfold args1.
      rewrite lookup_insert_eq, lookup_insert_ne by done.
      by rewrite lookup_delete_eq.
    + destruct (Hren b Hb) as [-> ->]. auto.
  - intros k Hk Hsk. rewrite Hother; [|set_solver..].
    unfold args1. rewrite lookup_insert_ne by set_solver.
    apply lookup_delete_ne. set_solver.
Qed.

Lemma remap_scene_loop_all (args : pydict) :
  has_all names args →
  (remap_scene_loop names args).2 = None
  ∧ renames names args (remap_scene_loop names args).1.
Proof using Hnames Hsuffixed Hapart.
  by apply (remap_scene_loop_renames []).
Qed.

End Renaming.

Lemma remap_scene_loop_missing names pre a post (args : pydict) :
  NoDup names →
  NoDup (suffixed <$> names) →
  (∀ a b, a ∈ names → b ∈ names → suffixed a ≠ b) →
  names = pre ++ a :: post →
  has_all pre args →
  args !! a = None →
  (remap_scene_loop names args).2 = Some KeyError
  ∧ renames pre args (remap_scene_loop names args).1.
Proof.
  intros Hnames Hsuffixed Hapart -> Hall Ha.
  apply NoDup_app in Hnames as (Hpre & Hdisj & _).
  rewrite fmap_app in Hsuffixed. apply NoDup_app in Hsuffixed as (Hspre & _).
  destruct (remap_scene_loop_all pre Hpre Hspre) with (args := args)
    as [Hok Hren]; [set_solver|done|].
  rewrite remap_scene_loop_app.
  destruct (remap_scene_loop pre args) as [args' err]. simpl in *. subst err.
  assert (args' !! a = None) as ->; [|done].
  destruct Hren as [_ Hother]. rewrite Hother; [done|set_solver|].
  intros (b & ? & ?)%list_elem_of_fmap. apply (Hapart b a); set_solver.
Qed.

Lemma scene_args_NoDup : NoDup scene_args.
Proof. apply (bool_decide_unpack _). by vm_compute. Qed.

Lemma scene_args_suffixed_NoDup : NoDup (suffixed <$> scene_args).
Proof. apply (bool_decide_unpack _). by vm_compute. Qed.

Lemma scene_args_apart a b :
  a ∈ scene_args → b ∈ scene_args → suffixed a ≠ b.
Proof.
  assert (Forall (λ a, Forall (λ b, suffixed a ≠ b) scene_args) scene_args)
    as Hall by (apply (bool_decide_unpack _); by vm_compute).
  rewrite Forall_forall in Hall. intros Ha Hb.
  specialize (Hall a Ha). rewrite Forall_forall in Hall. by apply Hall.
Qed.

(** A list either holds only present names, or splits at its first
    missing name. *)
Lemma first_missing (names : list string) (args : pydict) :
  has_all names args
  ∨ ∃ pre a post, names = pre ++ a :: post
                  ∧ has_all pre args ∧ args !! a = None.
Proof.
  induction names as [|a names IH].
  { left. by intros a ?%elem_of_nil. }
  destruct (args !! a) as [v|] eqn:Ha.
  - destruct IH as [Hall|(pre & b & post & -> & Hpre & Hb)].
    + left. intros b [->|?]%elem_of_cons; [by eexists|by apply Hall].
    + right. exists (a :: pre), b, post. split; [done|]. split; [|done].
      intros c [->|?]%elem_of_cons; [by eexists|by apply Hpre].
  - right. exists [], a, names. split; [done|]. split; [|done].
    by intros c ?%elem_of_nil.
Qed.

(** C10, as stated, fails: with all six names present, an entry that
    is already stored under a suffixed name is not left unchanged; it is
    overwritten by the renamed value. *)
Lemma remap_scene_args_overwrites :
  has_all scene_args seven_args
  ∧ ("range_x_scene" ∉ scene_args)
  ∧ seven_args !! "range_x_scene" = Some VNone
  ∧ (remap_scene_args seven_args).1 !! "range_x_scene" = Some unit_interval.
Proof.
  split.
  { intros a. unfold scene_args. rewrite !elem_of_cons, elem_of_nil.
    intros H. repeat (destruct H as [->|H]); [..|done];
      (vm_compute; by eexists). }
  split.
  { unfold scene_args. rewrite !elem_of_cons, elem_of_nil.
    intros H. repeat (destruct H as [?|H]); done. }
  split; vm_compute; reflexivity.
Qed.

(** C10, amended: [remap_scene_args] succeeds exactly when the dict
    holds all six names.  Then every name is removed and its value is
    stored under the name with ["_scene"] appended, and every entry whose
    key is neither one of the six names nor one of the six suffixed names
    is left unchanged.  When a name is missing, [KeyError] is raised and
    the dict is left with the names before the missing one renamed. *)
Theorem remap_scene_args_renames (args : pydict) :
  ((remap_scene_args args).2 = None ↔ has_all scene_args args)
  ∧ (has_all scene_args args →
       renames scene_args args (remap_scene_args args).1)
  ∧ (∀ pre a post,
       scene_args = pre ++ a :: post →
       has_all pre args →
       args !! a = None →
       (remap_scene_args args).2 = Some KeyError
       ∧ renames pre args (remap_scene_args args).1).
Proof.
  pose proof (remap_scene_loop_all scene_args scene_args_NoDup
                scene_args_suffixed_NoDup scene_args_apart args) as Hall.
  pose proof (λ pre a post,
                remap_scene_loop_missing scene_args pre a post args
                  scene_args_NoDup scene_args_suffixed_NoDup
                  scene_args_apart) as Hmiss.
  unfold remap_scene_args. split; [|split].
  - split; [|intros H; by destruct (Hall H)].
    intros Hok. destruct (first_missing scene_args args)
      as [?|(pre & a & post & Hsplit & Hpre & Ha)]; [done|].
    destruct (Hmiss pre a post Hsplit Hpre Ha) as [Herr _]. congruence.
  - intros H. by destruct (Hall H).
  - done.
Qed.

Lemma remap_scene_args_renames_witness :
  (remap_scene_args six_args).2 = None
  ∧ renames scene_args six_args (remap_scene_args six_args).1
  ∧ (remap_scene_args (delete "range_z" six_args)).2 = Some KeyError
  ∧ renames ["range_x"; "range_y"] (delete "range_z" six_args)
      (remap_scene_args (delete "range_z" six_args)).1.
Proof.
  assert (has_all scene_args six_args) as Hall.
  { intros a. unfold scene_args. rewrite !elem_of_cons, elem_of_nil.
    intros H. repeat (destruct H as [->|H]); [..|done];
      (vm_compute; by eexists). }
  assert (has_all ["range_x"; "range_y"] (delete "range_z" six_args)) as Hpre.
  { intros a. rewrite !elem_of_cons, elem_of_nil.
    intros H. repeat (destruct H as [->|H]); [..|done];
      (vm_compute; by eexists). }
  destruct (remap_scene_args_renames six_args) as (Hiff & Hren & _).
  destruct (remap_scene_args_renames (delete "range_z" six_args))
    as (_ & _ & Hmiss).
  destruct (Hmiss ["range_x"; "range_y"] "range_z" ["log_x"; "log_y"; "log_z"])
    as [Herr Hpart]; [done|done|by vm_compute|].
  split; [by apply Hiff|]. split; [by apply Hren|]. by split.
Defined.

(** ** Axis reindexer: names and numbers *)

Lemma pretty_N_go_nonempty (x : N) (s : string) :
  s ≠ "" → pretty_N_go x s ≠ "".
Proof.
  revert s. induction (N.lt_wf_0 x) as [x _ IH]; intros s Hs.
  destruct (decide (x = 0)%N) as [->|]; [by rewrite pretty_N_go_0|].
  rewrite pretty_N_go_step by lia. apply IH; [|done].
  apply N.div_lt; lia.
Qed.

Lemma pretty_Z_nonempty (n : Z) : pretty n ≠ "".
Proof.
  destruct n as [|p|p]; [done| |done].
  unfold pretty, pretty_Z, pretty, pretty_positive, pretty, pretty_N.
  rewrite decide_False by done. rewrite pretty_N_go_step by lia.
  by apply pretty_N_go_nonempty.
Qed.

#[global] Instance axis_num_inj : Inj (=) (=) axis_num.
Proof.
  intros m n. unfold axis_num. repeat case_decide; subst; try done.
  - intros Heq. by destruct (pretty_Z_nonempty n).
  - intros Heq. by destruct (pretty_Z_nonempty m).
  - apply (inj pretty).
Qed.

#[global] Instance new_axis_name_inj : Inj (=) (=) new_axis_name.
Proof.
  intros [t m] [t' n]. unfold new_axis_name. simpl. intros H.
  destruct t, t'; simpl in H; try discriminate;
    by apply (inj (String.app _)), (inj axis_num) in H as ->.
Qed.

Lemma family_name_app_nil type_ : family_name type_ +:+ "" = family_name type_.
Proof. by destruct type_. Qed.

Lemma classify_new_axis type_ num :
  classify (family_name type_ +:+ num) = Some type_.
Proof. destruct type_; vm_compute; reflexivity. Qed.

Lemma start_of_bump type_ type_' start :
  start_of type_ (bump type_' start)
  = if decide (type_ = type_') then (start_of type_ start + 1)%Z
    else start_of type_ start.
Proof. by destruct type_, type_'. Qed.

(** Within a family the numbers given out are consecutive. *)
Lemma numbering_family type_ start keys :
  ∃ n, (0 ≤ n)%Z
    ∧ of_family type_ (numbering start keys)
      = pair type_ <$> seqZ (start_of type_ start) n
    ∧ start_of type_ (start_after start keys) = (start_of type_ start + n)%Z.
Proof.
  revert start. induction keys as [|k keys IH]; intros start; simpl.
  { exists 0%Z. split; [done|]. split; [done|lia]. }
  destruct (classify k) as [t|]; [|apply IH].
  destruct (IH (bump t start)) as (n & Hn & Hnum & Hstart).
  rewrite start_of_bump in Hnum, Hstart. unfold of_family in *.
  destruct (decide (type_ = t)) as [<-|Hne].
  - exists (Z.succ n). split; [lia|]. split; [|lia].
    rewrite filter_cons_True by done. rewrite Hnum.
    rewrite (seqZ_cons _ (Z.succ n)) by lia.
    by rewrite Z.pred_succ.
  - exists n. split; [done|]. split; [|done].
    by rewrite filter_cons_False by (simpl; congruence).
Qed.

Lemma numbers_NoDup type_ m n :
  NoDup (new_axis_name <$> (pair type_ <$> seqZ m n)).
Proof.
  apply (NoDup_fmap_2 _). apply (NoDup_fmap_2 _). apply NoDup_seqZ.
Qed.

Lemma numbering_lower type_ n start keys :
  (type_, n) ∈ numbering start keys → (start_of type_ start ≤ n)%Z.
Proof.
  revert start. induction keys as [|k keys IH]; intros start; simpl.
  { by intros ?%elem_of_nil. }
  destruct (classify k) as [t|]; [|apply IH].
  intros [[= -> ->]|Hin%IH]%elem_of_cons; [done|].
  rewrite start_of_bump in Hin. case_decide; lia.
Qed.

Lemma numbering_NoDup start keys : NoDup (numbering start keys).
Proof.
  revert start. induction keys as [|k keys IH]; intros start; simpl.
  { constructor. }
  destruct (classify k) as [t|]; [|apply IH].
  constructor; [|apply IH].
  intros Hin%numbering_lower. rewrite start_of_bump, decide_True in Hin by done.
  lia.
Qed.

Lemma new_axis_names_NoDup start keys :
  NoDup (new_axis_name <$> numbering start keys).
Proof. apply (NoDup_fmap_2 _), numbering_NoDup. Qed.

(** ** Ordered dictionaries *)

Lemma filter_all {A} (P : A → Prop) `{!∀ x, Decision (P x)} (l : list A) :
  (∀ x, x ∈ l → P x) → filter P l = l.
Proof.
  induction l as [|x l IH]; intros Hall; [done|].
  rewrite filter_cons_True by (apply Hall; left).
  f_equal. apply IH. intros y Hy. apply Hall. by right.
Qed.

Lemma filter_iff_in {A} (P Q : A → Prop)
    `{!∀ x, Decision (P x), !∀ x, Decision (Q x)} (l : list A) :
  (∀ x, x ∈ l → P x ↔ Q x) → filter P l = filter Q l.
Proof.
  induction l as [|x l IH]; intros Hiff; [done|].
  assert (P x ↔ Q x) as Hx by (apply Hiff; left).
  assert (filter P l = filter Q l) as Hl.
  { apply IH. intros y Hy. apply Hiff. by right. }
  destruct (decide (P x)).
  - rewrite !filter_cons_True by naive_solver. by rewrite Hl.
  - rewrite !filter_cons_False by naive_solver. done.
Qed.

Lemma okeys_filter {V} (P : string → Prop) `{!∀ k, Decision (P k)}
    (d : odict V) :
  okeys (filter (λ kv, P kv.1) d) = filter P (okeys d).
Proof.
  unfold okeys. induction d as [|[k v] d IH]; [done|].
  rewrite (fmap_cons fst (k, v) d).
  rewrite (filter_cons P), (filter_cons (λ kv : string * V, P kv.1)).
  simpl. destruct (decide (P k)); [rewrite fmap_cons|]; by rewrite IH.
Qed.

Lemma elem_of_okeys_oset {V} k k' (v : V) (d : odict V) :
  k' ∈ okeys (oset k v d) ↔ k' = k ∨ k' ∈ okeys d.
Proof.
  unfold okeys. induction d as [|[k0 v0] d IH]; simpl.
  - rewrite list_elem_of_singleton, elem_of_nil. tauto.
  - case_decide; subst; simpl; rewrite !elem_of_cons; [tauto|].
    rewrite IH. tauto.
Qed.

Lemma okeys_oset_fresh {V} k (v : V) (d : odict V) :
  k ∉ okeys d → okeys (oset k v d) = okeys d ++ [k].
Proof.
  unfold okeys. induction d as [|[k0 v0] d IH]; simpl; [done|].
  rewrite not_elem_of_cons. intros [Hne Hd].
  rewrite decide_False by done. simpl. f_equal. by apply IH.
Qed.

Lemma elem_of_okeys_oupdate {V} k (d other : odict V) :
  k ∈ okeys (oupdate d other) ↔ k ∈ okeys d ∨ k ∈ okeys other.
Proof.
  unfold oupdate. revert d.
  induction other as [|[k0 v0] other IH]; intros d; simpl.
  - change (okeys []) with (@nil string). rewrite elem_of_nil. tauto.
  - change (okeys ((k0, v0) :: other)) with (k0 :: okeys other).
    rewrite IH, elem_of_okeys_oset, elem_of_cons. tauto.
Qed.

Lemma okeys_oupdate_fresh {V} (d other : odict V) :
  NoDup (okeys other) →
  (∀ k, k ∈ okeys other → k ∉ okeys d) →
  okeys (oupdate d other) = okeys d ++ okeys other.
Proof.
  unfold oupdate. revert d.
  induction other as [|[k0 v0] other IH]; intros d Hnd Hfresh; simpl.
  - by rewrite app_nil_r.
  - change (okeys ((k0, v0) :: other)) with (k0 :: okeys other) in *.
    apply NoDup_cons in Hnd as [Hk0 Hnd].
    assert (k0 ∉ okeys d) as Hd by (apply Hfresh, elem_of_cons; by left).
    rewrite IH, okeys_oset_fresh, <-(assoc_L (++)); [done..|].
    intros k Hk. rewrite elem_of_okeys_oset. intros [->|Hin]; [done|].
    revert Hin. apply Hfresh, elem_of_cons. by right.
Qed.

Lemma for_each_opop {V} (ks : list string) (d d' : odict V) :
  for_each (λ l axis, opop axis l) ks d = Ok d' →
  d' = filter (λ kv, kv.1 ∉ ks) d.
Proof.
  revert d. induction ks as [|k ks IH]; intros d; simpl.
  - intros [= <-]. symmetry. apply filter_all. intros kv _. apply not_elem_of_nil.
  - destruct (opop k d) as [d1|] eqn:Hpop; simpl; [|done].
    unfold opop in Hpop. destruct (oget k d); [|done]. injection Hpop as <-.
    intros ->%IH. unfold odel. rewrite list_filter_filter.
    apply list_filter_iff. intros kv. rewrite not_elem_of_cons. tauto.
Qed.

Lemma update_each_Forall2 {A} (f : A → result A) (xs ys : list A) :
  update_each f xs = Ok ys → Forall2 (λ x y, f x = Ok y) xs ys.
Proof.
  revert ys. induction xs as [|x xs IH]; intros ys; simpl.
  - intros [= <-]. constructor.
  - destruct (f x) as [y|] eqn:Hx; simpl; [|done].
    destruct (update_each f xs) as [ys'|]; simpl; [|done].
    intros [= <-]. constructor; [done|]. by apply IH.
Qed.

Lemma update_each_values_keys {V} (f : V → result V) (d d' : odict V) :
  update_each (λ kv : string * V, v ← f kv.2; Ok (kv.1, v)) d = Ok d' →
  okeys d' = okeys d.
Proof.
  intros H%update_each_Forall2. unfold okeys.
  induction H as [|[k v] [k' v'] d d' Hkv _ IH]; [done|].
  rewrite !fmap_cons, IH. simpl in *.
  destruct (f v); simpl in Hkv; [|done]. by injection Hkv as -> _.
Qed.

(** ** Axis reindexer: the loops of [resize] *)

Lemma resize_axis_names type_ old_axis axis num nd axis' new_axis ota nta :
  resize_axis type_ old_axis axis num nd = Ok (axis', (new_axis, ota, nta)) →
  new_axis = family_name type_ +:+ num ∧ nta = trace_axis_name type_ num.
Proof.
  unfold resize_axis, trace_axis_name. destruct (which_of type_) as [which|].
  - destruct (resize_xy_axis _ _ _); simpl; [|done]. by intros [= _ <- _ <-].
  - destruct (resize_domain _ _); simpl; [|done]. by intros [= _ <- _ <-].
Qed.

Lemma resize_step_inv nd st k v st' :
  resize_step nd st (k, v) = Ok st' →
  match classify k with
  | None => st' = st
  | Some type_ =>
      ∃ axis ota,
        st' = ResizeState
                (<[ota := trace_axis_name type_
                            (axis_num (start_of type_ (new_axes_start st)))]>
                   (axes_remapping st))
                (oset (new_axis_name (type_, start_of type_ (new_axes_start st)))
                   (VDict axis) (new_axes st))
                (old_axes st ++ [k]) (bump type_ (new_axes_start st))
  end.
Proof.
  unfold resize_step. destruct (classify k) as [t|]; [|by intros [= <-]].
  destruct (as_dict v) as [axis|]; simpl; [|done].
  destruct (resize_axis _ _ _ _ _) as [[axis' [[na ota] nta]]|] eqn:Hax;
    simpl; [|done].
  apply resize_axis_names in Hax as [-> ->]. intros [= <-].
  by exists axis', ota.
Qed.

Lemma resize_loop_spec nd (layout : odict value) st st' :
  for_each (resize_step nd) layout st = Ok st' →
  new_axes_start st' = start_after (new_axes_start st) (okeys layout)
  ∧ old_axes st'
    = old_axes st ++ filter (λ k, is_Some (classify k)) (okeys layout)
  ∧ (∀ k, k ∈ okeys (new_axes st') ↔
          k ∈ okeys (new_axes st)
          ∨ k ∈ new_axis_name <$> numbering (new_axes_start st) (okeys layout))
  ∧ (∀ o n, axes_remapping st' !! o = Some n →
            axes_remapping st !! o = Some n
            ∨ ∃ tn, tn ∈ numbering (new_axes_start st) (okeys layout)
                    ∧ n = trace_axis_name tn.1 (axis_num tn.2))
  ∧ (NoDup (okeys (new_axes st)
            ++ (new_axis_name <$> numbering (new_axes_start st) (okeys layout)))
     → okeys (new_axes st')
       = okeys (new_axes st)
         ++ (new_axis_name <$> numbering (new_axes_start st) (okeys layout))).
Proof.
  revert st. induction layout as [|[k v] layout IH]; intros st.
  { intros [= <-]. simpl. rewrite app_nil_r. split_and!; try done.
    - intros k. rewrite elem_of_nil. tauto.
    - auto.
    - by rewrite app_nil_r. }
  change (okeys ((k, v) :: layout)) with (k :: okeys layout).
  intros Hloop. cbn [for_each] in Hloop.
  destruct (resize_step nd st (k, v)) as [st1|] eqn:Hstep; [|done].
  simpl in Hloop. apply resize_step_inv in Hstep.
  destruct (IH st1 Hloop) as (Hs & Ho & Hk & Hr & Hnd). clear IH Hloop.
  cbn [numbering start_after].
  destruct (classify k) as [t|] eqn:Hc.
  - destruct Hstep as (axis & ota & ->). simpl in *.
    rewrite filter_cons_True by (by rewrite Hc).
    split_and!.
    + done.
    + by rewrite Ho, <-(assoc_L (++)).
    + intros k'. rewrite Hk, elem_of_okeys_oset, elem_of_cons. tauto.
    + intros o n [Hn|(tn & Htn & ->)]%Hr.
      * apply lookup_insert_Some in Hn as [[_ <-]|[_ Hn]]; [|by left].
        right. exists (t, start_of t (new_axes_start st)).
        split; [|done]. apply elem_of_cons. by left.
      * right. exists tn. split; [|done]. apply elem_of_cons. by right.
    + intros Hdup.
      assert (new_axis_name (t, start_of t (new_axes_start st))
              ∉ okeys (new_axes st)) as Hfresh.
      { apply NoDup_app in Hdup as (_ & Hdisj & _). intros ?%Hdisj. set_solver. }
      rewrite Hnd; rewrite okeys_oset_fresh by done;
        by rewrite <-(assoc_L (++)).
  - subst st1. rewrite filter_cons_False by (rewrite Hc; by intros [? ?]).
    done.
Qed.

Lemma resize_spec fig_data fig_layout nd start fig_data' fig_layout' start' :
  nd ≠ ∅ →
  resize fig_data fig_layout nd start = Ok (fig_data', fig_layout', start') →
  ∃ remap : remapping,
    start' = start_after start (okeys fig_layout)
    ∧ okeys fig_layout'
      = filter (λ k, classify k = None) (okeys fig_layout)
        ++ (new_axis_name <$> numbering start (okeys fig_layout))
    ∧ (∀ o n, remap !! o = Some n →
              ∃ tn, tn ∈ numbering start (okeys fig_layout)
                    ∧ n = trace_axis_name tn.1 (axis_num tn.2))
    ∧ Forall2 (λ t t', resize_trace nd remap t = Ok t') fig_data fig_data'.
Proof.
  intros Hnd. unfold resize. rewrite decide_False by done.
  destruct (for_each (resize_step nd) _ _) as [st|] eqn:Hloop; simpl; [|done].
  destruct (for_each _ (old_axes st) _) as [popped|] eqn:Hpop; simpl; [|done].
  destruct (update_each _ fig_data) as [ds|] eqn:Hdata; simpl; [|done].
  destruct (update_each _ (oupdate _ _)) as [ls|] eqn:Hlayout; simpl; [|done].
  intros [= <- <- <-].
  apply resize_loop_spec in Hloop as (Hstart & Hold & _ & Hremap & Hkeys).
  simpl in *. specialize (Hkeys (new_axis_names_NoDup _ _)).
  exists (axes_remapping st). split_and!.
  - done.
  - rewrite (update_each_values_keys
               (λ v, reassign_attributes v (axes_remapping st)) _ _ Hlayout).
    apply for_each_opop in Hpop as ->.
    rewrite okeys_oupdate_fresh, Hkeys.
    + f_equal. rewrite <-(okeys_filter (λ k, classify k = None)). f_equal.
      apply filter_iff_in. intros [k v] Hkv. simpl. rewrite Hold.
      rewrite list_elem_of_filter. split.
      * intros Hnot. destruct (classify k) eqn:Hc; [|done].
        destruct Hnot. split; [by eexists|].
        apply list_elem_of_fmap. by exists (k, v).
      * intros -> [[? [=]] _].
    + rewrite Hkeys. apply new_axis_names_NoDup.
    + intros k. rewrite Hkeys.
      intros ([t n] & -> & _)%list_elem_of_fmap.
      unfold okeys at 1.
      intros ([k v] & Hk & [Hnot Hin]%list_elem_of_filter)%list_elem_of_fmap.
      simpl in *. subst k. apply Hnot. rewrite Hold.
      apply list_elem_of_filter. split.
      * unfold new_axis_name. simpl. rewrite classify_new_axis. by eexists.
      * apply list_elem_of_fmap. by eexists (_, v).
  - intros o n [Hn|Hn]%Hremap; [|done]. by rewrite lookup_empty in Hn.
  - by apply update_each_Forall2.
Qed.

Lemma reassign_field_spec field (remap : remapping) (trace trace' : pydict) :
  reassign_field field remap trace = Ok trace' →
  (∀ g, g ≠ field → trace' !! g = trace !! g)
  ∧ (∀ v, trace' !! field = Some v →
          ∃ o n, remap !! o = Some n ∧ v = VStr n).
Proof.
  unfold reassign_field. destruct (trace !! field) as [old|] eqn:Hfield.
  - destruct (remap_lookup remap old) as [new|] eqn:Hnew; simpl; [|done].
    intros [= <-]. split.
    + intros g Hg. by rewrite lookup_insert_ne.
    + intros v. rewrite lookup_insert_eq. intros [= <-].
      unfold remap_lookup in Hnew. destruct old as [| | |s| |]; try done.
      destruct (remap !! s) eqn:Hs; [|done]. injection Hnew as ->. eauto.
  - intros [= <-]. split; [done|]. congruence.
Qed.

Lemma reassign_axes_spec (remap : remapping) (trace trace' : pydict) field v :
  reassign_axes trace remap = Ok trace' →
  field ∈ trace_fields →
  trace' !! field = Some v →
  ∃ o n, remap !! o = Some n ∧ v = VStr n.
Proof.
  unfold reassign_axes.
  destruct (reassign_field "xaxis" remap trace) as [t1|] eqn:H1; simpl; [|done].
  destruct (reassign_field "yaxis" remap t1) as [t2|] eqn:H2; simpl; [|done].
  destruct (reassign_field "scene" remap t2) as [t3|] eqn:H3; simpl; [|done].
  destruct (reassign_field "subplot" remap t3) as [t4|] eqn:H4; simpl; [|done].
  intros H5.
  apply reassign_field_spec in H1 as [_ V1], H2 as [F2 V2], H3 as [F3 V3],
    H4 as [F4 V4], H5 as [F5 V5].
  unfold trace_fields. rewrite !elem_of_cons, elem_of_nil.
  intros [->|[->|[->|[->|[->|[]]]]]].
  - rewrite F5, F4, F3, F2 by done. apply V1.
  - rewrite F5, F4, F3 by done. apply V2.
  - rewrite F5, F4 by done. apply V3.
  - rewrite F5 by done. apply V4.
  - apply V5.
Qed.

(** [resize_domain] touches the ["domain"] entry only. *)
Lemma resize_domain_frame (obj obj' : pydict) nd k :
  resize_domain obj nd = Ok obj' → k ≠ "domain" → obj' !! k = obj !! k.
Proof.
  intros Hres Hk. unfold resize_domain in Hres.
  destruct_inner Hres; injection Hres as <-; by rewrite ?lookup_insert_ne.
Qed.

Lemma resize_trace_spec nd (remap : remapping) (trace trace' : pydict) field v :
  resize_trace nd remap trace = Ok trace' →
  field ∈ trace_fields →
  trace' !! field = Some v →
  ∃ o n, remap !! o = Some n ∧ v = VStr n.
Proof.
  unfold resize_trace.
  destruct (reassign_axes trace remap) as [t1|] eqn:Haxes; simpl; [|done].
  intros Hres Hfield.
  assert (trace' !! field = t1 !! field) as ->.
  { case_decide; [|by injection Hres as <-].
    eapply resize_domain_frame; [done|].
    intros ->. revert Hfield. unfold trace_fields.
    rewrite !elem_of_cons, elem_of_nil. naive_solver. }
  by eapply reassign_axes_spec.
Qed.

(** C3: after [resize] with a non-empty domain box, every original axis
    entry has been removed: the keys of the returned layout are the
    original keys of no axis family followed by the newly assigned axis
    keys, so a key of an axis family is a key of the result only as a
    newly assigned one; and every axis reference of every trace is the
    trace-level name of a key of the returned layout. *)
Theorem resize_reindexes fig_data fig_layout nd start
    fig_data' fig_layout' start' :
  nd ≠ ∅ →
  resize fig_data fig_layout nd start = Ok (fig_data', fig_layout', start') →
  okeys fig_layout'
  = filter (λ k, classify k = None) (okeys fig_layout)
    ++ (new_axis_name <$> numbering start (okeys fig_layout))
  ∧ (∀ k, is_Some (classify k) → k ∈ okeys fig_layout' →
          k ∈ new_axis_name <$> numbering start (okeys fig_layout))
  ∧ (∀ (trace : pydict) field v,
       trace ∈ fig_data' → field ∈ trace_fields → trace !! field = Some v →
       ∃ type_ num, v = VStr (trace_axis_name type_ num)
                    ∧ family_name type_ +:+ num ∈ okeys fig_layout').
Proof.
  intros Hnd Hres.
  destruct (resize_spec _ _ _ _ _ _ _ Hnd Hres)
    as (remap & _ & Hkeys & Hremap & Htraces).
  split; [done|]. split.
  - intros k [t Ht]. rewrite Hkeys, elem_of_app, list_elem_of_filter.
    intros [[Hnone _]|?]; [congruence|done].
  - intros trace field v Htrace Hfield Hv.
    apply list_elem_of_lookup in Htrace as [i Hi].
    destruct (Forall2_lookup_r _ _ _ _ _ Htraces Hi) as (trace0 & _ & Hres0).
    destruct (resize_trace_spec _ _ _ _ _ _ Hres0 Hfield Hv)
      as (o & n & [[t m] [Htn ->]]%Hremap & ->).
    exists t, (axis_num m). split; [done|].
    rewrite Hkeys, elem_of_app. right.
    apply list_elem_of_fmap. by exists (t, m).
Qed.

Lemma resize_reindexes_witness :
  ∃ fig_data' fig_layout' start',
    resize (data xy_figure) (layout xy_figure) box_x_right
      (AxesStart 2 2 1 1 1)
      = Ok (fig_data', fig_layout', start')
    ∧ okeys fig_layout' = ["xaxis2"; "yaxis2"]
    ∧ (∀ (trace : pydict) field v,
         trace ∈ fig_data' → field ∈ trace_fields →
         trace !! field = Some v →
         ∃ type_ num, v = VStr (trace_axis_name type_ num)
                      ∧ family_name type_ +:+ num ∈ okeys fig_layout').
Proof.
  assert (∃ d l c, resize (data xy_figure) (layout xy_figure) box_x_right
                     (AxesStart 2 2 1 1 1) = Ok (d, l, c))
    as (d & l & c & Hres) by (do 3 eexists; vm_compute; reflexivity).
  assert (box_x_right ≠ ∅) as Hnd.
  { intros H. apply (f_equal (lookup "x")) in H. by vm_compute in H. }
  destruct (resize_reindexes _ _ _ _ _ _ _ Hnd Hres) as (Hkeys & _ & Htraces).
  exists d, l, c. split; [done|]. split; [|done].
  rewrite Hkeys. vm_compute. reflexivity.
Defined.

(** * Further properties *)

(** ** Domain mapper *)




(** X3: a new domain with fewer than two numbers raises [IndexError]
    whatever the positions are; with two numbers, an empty list of
    positions is returned empty whatever the source domain is, and a
    position that is a string or [None] raises [TypeError]. *)
Theorem get_new_positions_edges (nd cd : list Qc) (positions : value) :
  (length nd < 2 → get_new_positions nd positions cd = Raise IndexError)
  ∧ ((2 ≤ length nd)%nat → get_new_positions nd (VList []) cd = Ok (VList []))
  ∧ ((2 ≤ length nd)%nat → (2 ≤ length cd)%nat →
     get_new_positions nd VNone cd = Raise TypeError
     ∧ ∀ s, get_new_positions nd (VStr s) cd = Raise TypeError).
Proof.
  unfold get_new_positions, new_position, index.
  destruct nd as [|a [|b nd]]; simpl; split_and!; try done; try lia.
  all: intros _ Hcd; destruct cd as [|lo [|hi cd]]; simpl in Hcd; try lia.
  all: done.
Qed.

Lemma get_new_positions_edges_witness :
  get_new_positions [half] unit_interval [0%Qc; 1%Qc] = Raise IndexError
  ∧ get_new_positions [0%Qc; half] (VList []) [] = Ok (VList [])
  ∧ get_new_positions [0%Qc; half] VNone [0%Qc; 1%Qc] = Raise TypeError.
Proof.
  destruct (get_new_positions_edges [half] [0%Qc; 1%Qc] unit_interval)
    as (H1 & _).
  destruct (get_new_positions_edges [0%Qc; half] [] unit_interval)
    as (_ & H2 & _).
  destruct (get_new_positions_edges [0%Qc; half] [0%Qc; 1%Qc] unit_interval)
    as (_ & _ & H3).
  split; [apply H1; simpl; lia|]. split; [apply H2; simpl; lia|].
  apply H3; simpl; lia.
Defined.

(** ** Domain resizer *)

(** X4: the [except ValueError] clauses of the resizers never run: an
    exception raised by [get_new_positions] while the object is resized
    comes out of [resize_domain] and of [resize_xy_axis] as it is. *)
Theorem resizers_propagate_errors (obj d : pydict) (x y dom : value)
    (nd : domain_box) (ndx : list Qc) (e : exn) :
  nd !! "x" = Some ndx →
  ndx ≠ [] →
  (obj !! "domain" = Some (VDict d) → d !! "x" = Some x → d !! "y" = Some y →
   get_new_positions ndx x [0; 1]%Qc = Raise e →
   resize_domain obj nd = Raise e)
  ∧ (obj !! "domain" = Some dom →
     get_new_positions ndx dom [0; 1]%Qc = Raise e →
     resize_xy_axis obj nd "x" = Raise e).
Proof.
  intros Hndx Hne. destruct ndx as [|q ndx]; [done|]. split.
  - intros Hdom Hx Hy Hraise.
    pose proof (get_new_positions_not_ValueError (q :: ndx) x [0; 1]%Qc) as Hnv.
    unfold resize_domain. cbn -[get_new_positions].
    rewrite Hdom, Hndx. cbn -[get_new_positions]. rewrite Hx, Hy.
    cbn -[get_new_positions]. rewrite Hraise. simpl.
    rewrite decide_False; [done|congruence].
  - intros Hdom Hraise.
    pose proof (get_new_positions_not_ValueError (q :: ndx) dom [0; 1]%Qc)
      as Hnv.
    unfold resize_xy_axis, xy_axis_update. cbn -[get_new_positions].
    rewrite Hdom, Hndx. cbn -[get_new_positions]. rewrite Hraise. simpl.
    rewrite decide_False; [done|congruence].
Qed.

Lemma resizers_propagate_errors_witness :
  resize_domain obj_xy short_box = Raise IndexError
  ∧ resize_xy_axis {[ "domain" := unit_interval ]} short_box "x"
    = Raise IndexError.
Proof.
  destruct (resizers_propagate_errors obj_xy domain_xy unit_interval
              (VList [VNum half; VNum 1%Qc]) unit_interval short_box [half]
              IndexError) as [H1 _]; [by vm_compute|done|].
  destruct (resizers_propagate_errors {[ "domain" := unit_interval ]}
              domain_xy unit_interval unit_interval unit_interval short_box
              [half] IndexError) as [_ H2]; [by vm_compute|done|].
  split; [apply H1|apply H2]; by vm_compute.
Defined.

Lemma xy_axis_update_keys along across axis_domain axis_position
    (axis_update : pydict) k :
  xy_axis_update along across axis_domain axis_position = Ok axis_update →
  k ≠ "domain" →
  k ≠ "position" ∨ is_not_None axis_position = false →
  axis_update !! k = None.
Proof.
  intros Hup Hd Hp. unfold xy_axis_update in Hup.
  destruct (is_not_None axis_position) eqn:Hpos.
  - destruct Hp as [Hp|?]; [|done].
    destruct_inner Hup; injection Hup as <-;
      by rewrite ?lookup_insert_ne, ?lookup_empty by done.
  - rewrite andb_false_r in Hup.
    destruct_inner Hup; injection Hup as <-;
      by rewrite ?lookup_insert_ne, ?lookup_empty by done.
Qed.

(** X5: the resizers touch nothing else of the object: [resize_domain]
    changes the ["domain"] entry only, [resize_xy_axis] the ["domain"]
    and ["position"] entries only, and it never gives a position to an
    axis that has none. *)
Theorem resizers_frame (obj obj' : pydict) (nd : domain_box)
    (which k : string) :
  (resize_domain obj nd = Ok obj' → k ≠ "domain" → obj' !! k = obj !! k)
  ∧ (resize_xy_axis obj nd which = Ok obj' →
     k ≠ "domain" →
     k ≠ "position" ∨ is_not_None (obj !! "position") = false →
     obj' !! k = obj !! k).
Proof.
  split; [apply resize_domain_frame|].
  intros Hres Hd Hp. unfold resize_xy_axis in Hres.
  destruct (subscript (VDict obj) "domain") as [dom|]; simpl in Hres; [|done].
  unfold try_except in Hres.
  destruct (decide (which = "x"));
    match type of Hres with
    | context [xy_axis_update ?a ?b ?c ?d] =>
        destruct (xy_axis_update a b c d) as [u|] eqn:Hup; simpl in Hres
    end;
    try (case_decide; [|done]); injection Hres as <-; try done;
    apply lookup_union_r; by eapply xy_axis_update_keys.
Qed.

Lemma resizers_frame_witness :
  ∃ axis', resize_xy_axis titled_axis box_x "x" = Ok axis'
           ∧ axis' !! "title" = Some (VStr "t")
           ∧ axis' !! "position" = None.
Proof.
  assert (∃ axis', resize_xy_axis titled_axis box_x "x" = Ok axis')
    as [axis' Hres] by (eexists; vm_compute; reflexivity).
  exists axis'. split; [done|]. split.
  - rewrite (proj2 (resizers_frame titled_axis axis' box_x "x" "title") Hres);
      [by vm_compute|done|by left].
  - rewrite (proj2 (resizers_frame titled_axis axis' box_x "x" "position") Hres);
      [by vm_compute|done|by right].
Defined.



(** ** Axis reindexer *)

Lemma start_after_count type_ start keys :
  start_of type_ (start_after start keys)
  = (start_of type_ start + Z.of_nat (family_count type_ keys))%Z.
Proof.
  unfold family_count. revert start.
  induction keys as [|k keys IH]; intros start; simpl; [lia|].
  destruct (classify k) as [t|] eqn:Hc.
  - rewrite IH, start_of_bump. rewrite filter_cons, Hc.
    destruct (decide (type_ = t)) as [->|Hne].
    + rewrite decide_True by done. simpl. lia.
    + rewrite decide_False by congruence. lia.
  - rewrite IH. by rewrite filter_cons_False by (by rewrite Hc).
Qed.

(** X7: [resize] with a non-empty box advances the counter of every
    family by the number of layout keys of that family; with an empty
    box it leaves the counters alone. *)
Theorem resize_advances_counters fig_data fig_layout nd start
    fig_data' fig_layout' start' type_ :
  resize fig_data fig_layout nd start = Ok (fig_data', fig_layout', start') →
  start_of type_ start'
  = if decide (nd = ∅) then start_of type_ start
    else (start_of type_ start
          + Z.of_nat (family_count type_ (okeys fig_layout)))%Z.
Proof.
  intros Hres. case_decide as Hnd.
  - unfold resize in Hres. rewrite decide_True in Hres by done.
    by injection Hres as _ _ <-.
  - destruct (resize_spec _ _ _ _ _ _ _ Hnd Hres) as (_ & -> & _).
    apply start_after_count.
Qed.

Lemma resize_advances_counters_witness :
  ∃ fig_data' fig_layout' start',
    resize (data xy_figure) (layout xy_figure) box_x initial_axes_start
      = Ok (fig_data', fig_layout', start')
    ∧ start_of Xaxis start' = 2%Z ∧ start_of Scene start' = 1%Z.
Proof.
  assert (∃ d l c, resize (data xy_figure) (layout xy_figure) box_x
                     initial_axes_start = Ok (d, l, c))
    as (d & l & c & Hres) by (do 3 eexists; vm_compute; reflexivity).
  exists d, l, c. split; [done|].
  rewrite (resize_advances_counters _ _ _ _ _ _ _ Xaxis Hres).
  rewrite (resize_advances_counters _ _ _ _ _ _ _ Scene Hres).
  by vm_compute.
Defined.

Lemma reassign_axes_frame (remap : remapping) (trace trace' : pydict) k :
  reassign_axes trace remap = Ok trace' →
  k ∉ trace_fields →
  trace' !! k = trace !! k.
Proof.
  unfold reassign_axes, trace_fields. rewrite !not_elem_of_cons.
  destruct (reassign_field "xaxis" remap trace) as [t1|] eqn:H1; simpl; [|done].
  destruct (reassign_field "yaxis" remap t1) as [t2|] eqn:H2; simpl; [|done].
  destruct (reassign_field "scene" remap t2) as [t3|] eqn:H3; simpl; [|done].
  destruct (reassign_field "subplot" remap t3) as [t4|] eqn:H4; simpl; [|done].
  intros H5 (? & ? & ? & ? & ? & _).
  apply reassign_field_spec in H1 as [F1 _], H2 as [F2 _], H3 as [F3 _],
    H4 as [F4 _], H5 as [F5 _].
  by rewrite F5, F4, F3, F2, F1.
Qed.

(** X8: [resize] returns as many traces as it was given, in the same
    order, and changes nothing of a trace but its five axis references
    and its ["domain"]. *)
Theorem resize_keeps_trace_data fig_data fig_layout nd start
    fig_data' fig_layout' start' :
  resize fig_data fig_layout nd start = Ok (fig_data', fig_layout', start') →
  Forall2 (λ trace trace' : pydict,
             ∀ k, k ∉ trace_fields → k ≠ "domain" →
                  trace' !! k = trace !! k)
          fig_data fig_data'.
Proof.
  intros Hres. destruct (decide (nd = ∅)) as [Hnd|Hnd].
  - unfold resize in Hres. rewrite decide_True in Hres by done.
    injection Hres as <- _ _. by apply Forall_Forall2_diag, Forall_forall.
  - destruct (resize_spec _ _ _ _ _ _ _ Hnd Hres) as (remap & _ & _ & _ & Hall).
    eapply Forall2_impl; [done|]. intros trace trace' Htrace k Hk Hd.
    unfold resize_trace in Htrace.
    destruct (reassign_axes trace remap) as [t1|] eqn:Haxes;
      simpl in Htrace; [|done].
    rewrite <-(reassign_axes_frame _ _ _ _ Haxes Hk).
    case_decide; [by eapply resize_domain_frame|by injection Htrace as <-].
Qed.

Lemma resize_keeps_trace_data_witness :
  ∃ fig_data' fig_layout' start',
    resize [<["name" := VStr "a"]> xy_trace] (layout xy_figure) box_x
      initial_axes_start
      = Ok (fig_data', fig_layout', start')
    ∧ Forall2 (λ trace trace' : pydict,
                 ∀ k, k ∉ trace_fields → k ≠ "domain" →
                      trace' !! k = trace !! k)
              [<["name" := VStr "a"]> xy_trace] fig_data'.
Proof.
  assert (∃ d l c, resize [<["name" := VStr "a"]> xy_trace]
                     (layout xy_figure) box_x initial_axes_start
                   = Ok (d, l, c))
    as (d & l & c & Hres) by (do 3 eexists; vm_compute; reflexivity).
  exists d, l, c. split; [done|].
  by apply (resize_keeps_trace_data _ _ _ _ _ _ _ Hres).
Defined.

(** ** Figure layering engine *)

Section LayerFurther.

Context {DataMapping : Type}.
Context (copy_mappings : DeephavenFigure DataMapping → nat → list DataMapping).

Implicit Types (args : list (arg DataMapping)) (st : layer_state DataMapping).
Implicit Types (which_layout : option Z) (domains : option (list domain_box)).

(** What one step of the loop of [layer] does to the state, for an input
    it accepts. *)
Lemma layer_step_inv which_layout domains i a st st' :
  layer_step copy_mappings which_layout domains i a st = Ok st' →
  accepted a
  ∧ ∃ f fig_data fig_layout,
      arg_figure a = Some f
      ∧ fig_data_and_layout f i domains which_layout (layer_axes_start st)
        = Ok (fig_data, fig_layout, layer_axes_start st')
      ∧ new_data st' = new_data st ++ fig_data
      ∧ new_layout st' = oupdate (new_layout st) fig_layout
      ∧ new_has_template st' = arg_has_template a || new_has_template st
      ∧ new_has_color st' = arg_has_color a || new_has_color st.
Proof.
  unfold layer_step. destruct a as [f|d|]; [| |done].
  - destruct (fig_data_and_layout f _ _ _ _) as [[[fd fl] c]|] eqn:Hfig;
      simpl; [|done].
    intros [= <-]. split; [done|]. by exists f, fd, fl.
  - simpl. destruct (has_subplots d) eqn:Hsub; [done|].
    destruct (fig_data_and_layout (fig d) _ _ _ _) as [[[fd fl] c]|] eqn:Hfig;
      simpl; [|done].
    intros [= <-]. split; [done|]. by exists (fig d), fd, fl.
Qed.

Lemma arg_figure_data (a : arg DataMapping) f :
  arg_figure a = Some f → data f = arg_data a ∧ layout f = arg_layout a.
Proof.
  destruct a as [f'|d|]; simpl; [by intros [= <-]| |done].
  destruct (has_subplots d); [done|]. by intros [= <-].
Qed.

Lemma layer_loop_data which_layout domains i args st st' :
  layer_loop copy_mappings which_layout domains i args st = Ok st' →
  length (new_data st')
  = (length (new_data st) + length (concat (arg_data <$> args)))%nat
  ∧ (domains = None →
     new_data st' = new_data st ++ concat (arg_data <$> args)).
Proof.
  revert i st. induction args as [|a args IH]; intros i st.
  { intros [= <-]. simpl. rewrite app_nil_r. split; [lia|done]. }
  intros Hloop. cbn [layer_loop] in Hloop.
  destruct (layer_step _ _ _ i a st) as [st1|] eqn:Hstep; [|done].
  simpl in Hloop. apply IH in Hloop as [Hlen Hdata].
  apply layer_step_inv in Hstep
    as (_ & f & fd & fl & Hf & Hfig & Hd & _).
  apply arg_figure_data in Hf as [Hf _].
  rewrite fmap_cons. simpl. split.
  - rewrite Hlen, Hd, !length_app.
    rewrite (fig_data_and_layout_length _ _ _ _ _ _ _ _ Hfig), Hf. lia.
  - intros ->. rewrite Hdata, Hd by done. simpl in Hfig.
    injection Hfig as <- _ _. by rewrite Hf, <-(assoc_L (++)).
Qed.

(** X9: [layer] neither adds nor drops a trace: the result has as many
    traces as all inputs together, and without domains its traces are
    the traces of the inputs, unchanged and in the order of the inputs. *)
Theorem layer_concatenates_traces args which_layout domains r :
  layer copy_mappings args which_layout domains default_callback = Ok r →
  length (data (fig r)) = length (concat (arg_data <$> args))
  ∧ (domains = None → data (fig r) = concat (arg_data <$> args)).
Proof.
  unfold layer. case_decide; [done|].
  destruct (layer_loop _ _ _ 0 args _) as [st|] eqn:Hloop; simpl; [|done].
  intros [= <-]. simpl. by apply layer_loop_data in Hloop.
Qed.

Lemma layer_loop_flags which_layout domains i args st st' :
  layer_loop copy_mappings which_layout domains i args st = Ok st' →
  new_has_template st' = existsb arg_has_template args || new_has_template st
  ∧ new_has_color st' = existsb arg_has_color args || new_has_color st.
Proof.
  revert i st. induction args as [|a args IH]; intros i st.
  { by intros [= <-]. }
  intros Hloop. cbn [layer_loop] in Hloop.
  destruct (layer_step _ _ _ i a st) as [st1|] eqn:Hstep; [|done].
  simpl in Hloop. apply IH in Hloop as [-> ->].
  apply layer_step_inv in Hstep
    as (_ & f & fd & fl & _ & _ & _ & _ & -> & ->).
  simpl. split;
    [destruct (arg_has_template a), (existsb arg_has_template args)
    |destruct (arg_has_color a), (existsb arg_has_color args)]; done.
Qed.

(** X10: the figure that [layer] returns always has [has_subplots] set;
    it has a template exactly when some wrapped input has one, and a
    colour exactly when some wrapped input has one. *)
Theorem layer_flags args which_layout domains unsafe_update r :
  layer copy_mappings args which_layout domains unsafe_update = Ok r →
  has_subplots r = true
  ∧ has_template r = existsb arg_has_template args
  ∧ has_color r = existsb arg_has_color args.
Proof.
  unfold layer. case_decide; [done|].
  destruct (layer_loop _ _ _ 0 args _) as [st|] eqn:Hloop; simpl; [|done].
  intros [= <-]. simpl. apply layer_loop_flags in Hloop as [-> ->].
  simpl. by rewrite !orb_false_r.
Qed.

Lemma layer_loop_accepted which_layout domains i args st st' :
  layer_loop copy_mappings which_layout domains i args st = Ok st' →
  Forall accepted args.
Proof.
  revert i st. induction args as [|a args IH]; intros i st; [done|].
  intros Hloop. cbn [layer_loop] in Hloop.
  destruct (layer_step _ _ _ i a st) as [st1|] eqn:Hstep; [|done].
  simpl in Hloop. constructor; [|by eapply IH].
  by apply layer_step_inv in Hstep as [? _].
Qed.

(** X11: [layer] returns a figure only for a non-empty sequence of
    inputs that are figures or wrapped figures without subplots; without
    domains it returns a figure for every such sequence. *)
Theorem layer_returns_iff args which_layout unsafe_update :
  (∀ domains r,
     layer copy_mappings args which_layout domains unsafe_update = Ok r →
     args ≠ [] ∧ Forall accepted args)
  ∧ (args ≠ [] → Forall accepted args →
     ∃ r, layer copy_mappings args which_layout None unsafe_update = Ok r).
Proof.
  split; [|apply layer_total].
  intros domains r. unfold layer. case_decide as Hlen; [done|].
  destruct (layer_loop _ _ _ 0 args _) as [st|] eqn:Hloop; simpl; [|done].
  intros _. split; [by intros ->|]. by eapply layer_loop_accepted.
Qed.

Lemma layer_loop_ext which_layout which_layout' domains domains' i args st :
  (∀ i a st,
     layer_step copy_mappings which_layout domains i a st
     = layer_step copy_mappings which_layout' domains' i a st) →
  layer_loop copy_mappings which_layout domains i args st
  = layer_loop copy_mappings which_layout' domains' i args st.
Proof.
  intros Hstep. revert i st.
  induction args as [|a args IH]; intros i st; simpl; [done|].
  rewrite Hstep. destruct (layer_step _ _ _ i a st); simpl; [apply IH|done].
Qed.

(** X12: when a non-empty list of domains is given, [which_layout] is
    not looked at; an empty list of domains is the same as none. *)
Theorem layer_domains_override args which_layout which_layout'
    (ds : list domain_box) unsafe_update :
  (ds ≠ [] →
   layer copy_mappings args which_layout (Some ds) unsafe_update
   = layer copy_mappings args which_layout' (Some ds) unsafe_update)
  ∧ layer copy_mappings args which_layout (Some []) unsafe_update
    = layer copy_mappings args which_layout None unsafe_update.
Proof.
  split; [intros Hne|]; unfold layer; (case_decide; [done|]); f_equal;
    apply layer_loop_ext; intros i a st;
    unfold layer_step, fig_data_and_layout.
  - by destruct a, ds as [|nd ds].
  - by destruct a.
Qed.

(** X13: a non-empty list of domains that is shorter than the list of
    inputs raises [IndexError] at the first input that has no domain,
    once the inputs before it have been resized. *)
Theorem layer_short_domains pre a post which_layout (ds : list domain_box)
    unsafe_update st :
  ds ≠ [] →
  length ds = length pre →
  accepted a →
  layer_loop copy_mappings which_layout (Some ds) 0 pre
    initial_layer_state = Ok st →
  layer copy_mappings (pre ++ a :: post) which_layout (Some ds)
    unsafe_update
  = Raise IndexError.
Proof.
  intros Hne Hlen Ha Hpre. unfold layer.
  rewrite decide_False by (rewrite length_app; simpl; lia).
  rewrite layer_loop_app. unfold initial_layer_state in Hpre.
  rewrite Hpre. simpl.
  assert (∀ f, fig_data_and_layout f (length pre) (Some ds)
                 which_layout (layer_axes_start st) = Raise IndexError)
    as Hfig.
  { intros f. unfold fig_data_and_layout, index.
    destruct ds as [|nd ds]; [done|].
    by rewrite lookup_ge_None_2 by lia. }
  destruct a as [f|d|]; simpl in *; [| |done].
  - by rewrite Hfig.
  - by rewrite Ha, Hfig.
Qed.

End LayerFurther.

Lemma layer_concatenates_traces_witness :
  ∃ r, layer shift_mappings
         [ArgDeephaven three_traces; ArgDeephaven two_traces]
         None None default_callback = Ok r
       ∧ length (data (fig r)) = 5
       ∧ data (fig r) = replicate 5 xy_trace.
Proof.
  assert (∃ r, layer shift_mappings
                 [ArgDeephaven three_traces; ArgDeephaven two_traces]
                 None None default_callback = Ok r) as [r Hr]
    by (eexists; reflexivity).
  destruct (layer_concatenates_traces _ _ _ _ _ Hr) as [Hlen Hdata].
  exists r. split; [done|]. split; [done|]. by rewrite Hdata.
Defined.

Lemma layer_flags_witness :
  ∃ r, layer shift_mappings [ArgDeephaven templated; ArgFigure barmode_figure]
         None None default_callback = Ok r
       ∧ has_subplots r = true ∧ has_template r = true
       ∧ has_color r = false.
Proof.
  assert (∃ r, layer shift_mappings
                 [ArgDeephaven templated; ArgFigure barmode_figure]
                 None None default_callback = Ok r) as [r Hr]
    by (eexists; reflexivity).
  exists r. split; [done|]. by apply (layer_flags _ _ _ _ _ _ Hr).
Defined.

Lemma layer_returns_iff_witness :
  ∃ r, layer shift_mappings [ArgDeephaven templated; ArgFigure barmode_figure]
         (Some 1%Z) None default_callback = Ok r.
Proof.
  apply (layer_returns_iff shift_mappings
           [ArgDeephaven templated; ArgFigure barmode_figure]);
    [done|by repeat constructor].
Defined.

Lemma layer_domains_override_witness :
  layer shift_mappings [ArgFigure xy_figure] (Some 5%Z) (Some [box_x])
    default_callback
  = layer shift_mappings [ArgFigure xy_figure] None (Some [box_x])
      default_callback.
Proof.
  by apply (layer_domains_override shift_mappings [ArgFigure xy_figure]
              (Some 5%Z) None [box_x]).
Defined.

Lemma layer_short_domains_witness :
  layer shift_mappings [ArgFigure xy_figure; ArgFigure xy_figure] None
    (Some [box_x]) default_callback
  = Raise IndexError.
Proof.
  assert (∃ st, layer_loop shift_mappings None (Some [box_x]) 0
                  [ArgFigure xy_figure] initial_layer_state = Ok st)
    as [st Hst] by (eexists; vm_compute; reflexivity).
  by apply (layer_short_domains shift_mappings [ArgFigure xy_figure]
              (ArgFigure xy_figure) [] None [box_x] default_callback st).
Defined.

(** ** Ordered dictionaries: lookups *)




Lemma oset_fresh {V} k (v : V) (d : odict V) :
  k ∉ okeys d → oset k v d = d ++ [(k, v)].
Proof.
  unfold okeys. induction d as [|[k0 v0] d IH]; simpl; [done|].
  rewrite not_elem_of_cons. intros [Hne Hd].
  rewrite decide_False by done. f_equal. by apply IH.
Qed.

Lemma oupdate_fresh {V} (d other : odict V) :
  NoDup (okeys other) →
  (∀ k, k ∈ okeys other → k ∉ okeys d) →
  oupdate d other = d ++ other.
Proof.
  unfold oupdate. revert d.
  induction other as [|[k0 v0] other IH]; intros d Hnd Hfresh; simpl.
  - by rewrite app_nil_r.
  - change (okeys ((k0, v0) :: other)) with (k0 :: okeys other) in *.
    apply NoDup_cons in Hnd as [Hk0 Hnd].
    assert (k0 ∉ okeys d) as Hd by (apply Hfresh, elem_of_cons; by left).
    rewrite oset_fresh by done. rewrite IH, <-(assoc_L (++)); [done..|].
    intros k Hk. unfold okeys. rewrite fmap_app, not_elem_of_app. simpl.
    split; [apply Hfresh, elem_of_cons; by right|].
    rewrite list_elem_of_singleton. by intros ->.
Qed.


Section LayerLayouts.

Context {DataMapping : Type}.
Context (copy_mappings : DeephavenFigure DataMapping → nat → list DataMapping).

Implicit Types (args : list (arg DataMapping)) (st : layer_state DataMapping).





End LayerLayouts.



(** ** Axis reindexer: the layout that [resize] returns *)

Lemma numbered_axes_numbering start (fl : odict value) :
  (numbered_axes start fl).*1 = numbering start (okeys fl).
Proof.
  revert start. induction fl as [|[k v] fl IH]; intros start; [done|].
  change (okeys ((k, v) :: fl)) with (k :: okeys fl). simpl.
  destruct (classify k); [|done]. rewrite fmap_cons. simpl. by rewrite IH.
Qed.

Lemma old_trace_axis_not_free type_ k (d d1 : pydict) num nd na ota nta :
  classify k = Some type_ →
  resize_axis type_ k d num nd = Ok (d1, (na, ota, nta)) →
  ota ≠ "free".
Proof.
  intros Hc. unfold resize_axis.
  assert (k ≠ "free") as Hk by (intros ->; by vm_compute in Hc).
  unfold classify in Hc.
  destruct type_; simpl.
  - destruct (resize_xy_axis _ _ _); simpl; [|done]. intros [= _ _ <- _].
    destruct (startswith k "xaxis") eqn:Hx; [|clear Hk; destruct_inner Hc].
    destruct k as [|c k]; [done|].
    unfold str_replace. cbn [replace_go]. rewrite Hx. intros [=].
  - destruct (resize_xy_axis _ _ _); simpl; [|done]. intros [= _ _ <- _].
    destruct (startswith k "xaxis") eqn:Hx; [done|].
    destruct (startswith k "yaxis") eqn:Hy; [|clear Hk; destruct_inner Hc].
    destruct k as [|c k]; [done|].
    unfold str_replace. cbn [replace_go]. rewrite Hy. intros [=].
  - destruct (resize_domain _ _); simpl; [|done]. by intros [= _ _ <- _].
  - destruct (resize_domain _ _); simpl; [|done]. by intros [= _ _ <- _].
  - destruct (resize_domain _ _); simpl; [|done]. by intros [= _ _ <- _].
Qed.

Lemma resize_loop_axes nd (fl : odict value) st st' :
  for_each (resize_step nd) fl st = Ok st' →
  NoDup (okeys (new_axes st)
         ++ (new_axis_name <$> numbering (new_axes_start st) (okeys fl))) →
  (axes_remapping st !! "free" = None → axes_remapping st' !! "free" = None)
  ∧ ∃ axes, new_axes st' = new_axes st ++ axes
            ∧ Forall2 (resized_axis nd)
                (numbered_axes (new_axes_start st) fl) axes.
Proof.
  revert st. induction fl as [|[k v] fl IH]; intros st.
  { intros [= <-] _. split; [done|]. exists []. rewrite app_nil_r.
    split; [done|constructor]. }
  change (okeys ((k, v) :: fl)) with (k :: okeys fl).
  intros Hloop Hdup. cbn [for_each] in Hloop.
  destruct (resize_step nd st (k, v)) as [st1|] eqn:Hstep; [|done].
  simpl in Hloop. cbn [numbering] in Hdup. cbn [numbered_axes].
  unfold resize_step in Hstep. destruct (classify k) as [t|] eqn:Hc.
  - destruct v as [| | | | |d]; try done. simpl in Hstep.
    destruct (resize_axis _ _ _ _ _) as [[d1 [[na ota] nta]]|] eqn:Hax;
      simpl in Hstep; [|done].
    injection Hstep as <-.
    pose proof (old_trace_axis_not_free _ _ _ _ _ _ _ _ _ Hc Hax) as Hfree.
    destruct (resize_axis_names _ _ _ _ _ _ _ _ _ Hax) as [Hna _].
    change (family_name t +:+ axis_num (start_of t (new_axes_start st)))
      with (new_axis_name (t, start_of t (new_axes_start st))) in Hna.
    subst na.
    assert (new_axis_name (t, start_of t (new_axes_start st))
            ∉ okeys (new_axes st)) as Hfresh.
    { apply NoDup_app in Hdup as (_ & Hdisj & _). intros ?%Hdisj. set_solver. }
    apply IH in Hloop as [Hremap (axes & Hax' & Hall)]; simpl in *.
    + split.
      * intros Hst. apply Hremap. by rewrite lookup_insert_ne.
      * exists ((new_axis_name (t, start_of t (new_axes_start st)), VDict d1)
                 :: axes).
        split.
        -- by rewrite Hax', oset_fresh, <-(assoc_L (++)).
        -- constructor; [|done]. split; [done|]. simpl. by eexists d, d1, _, _, _.
    + rewrite oset_fresh by done. unfold okeys in *.
      by rewrite fmap_app, <-(assoc_L (++)).
  - injection Hstep as <-. by apply IH.
Qed.

Lemma update_each_app_inv {A} (f : A → result A) (xs1 xs2 ys : list A) :
  update_each f (xs1 ++ xs2) = Ok ys →
  ∃ ys1 ys2, ys = ys1 ++ ys2
             ∧ Forall2 (λ x y, f x = Ok y) xs1 ys1
             ∧ Forall2 (λ x y, f x = Ok y) xs2 ys2.
Proof.
  intros H%update_each_Forall2.
  apply Forall2_app_inv_l in H as (ys1 & ys2 & ? & ? & ->). by exists ys1, ys2.
Qed.

Lemma resize_layout_spec fig_data fig_layout nd start
    fig_data' fig_layout' start' :
  nd ≠ ∅ →
  resize fig_data fig_layout nd start = Ok (fig_data', fig_layout', start') →
  ∃ (remap : remapping) kept axes,
    remap !! "free" = None
    ∧ fig_layout' = kept ++ axes
    ∧ Forall2 (λ kv kv', kv'.1 = kv.1
                         ∧ reassign_attributes kv.2 remap = Ok kv'.2)
        (unclassified fig_layout) kept
    ∧ Forall2 (λ tnv kv', ∃ kv1, resized_axis nd tnv kv1
                                 ∧ kv'.1 = kv1.1
                                 ∧ reassign_attributes kv1.2 remap = Ok kv'.2)
        (numbered_axes start fig_layout) axes.
Proof.
  intros Hnd. unfold resize. rewrite decide_False by done.
  destruct (for_each (resize_step nd) _ _) as [st|] eqn:Hloop; simpl; [|done].
  destruct (for_each _ (old_axes st) _) as [popped|] eqn:Hpop; simpl; [|done].
  destruct (update_each _ fig_data) as [ds|] eqn:Hdata; simpl; [|done].
  destruct (update_each _ (oupdate _ _)) as [ls|] eqn:Hlayout; simpl; [|done].
  intros [= <- <- <-].
  pose proof Hloop as Hloop'.
  apply resize_loop_spec in Hloop as (_ & Hold & _ & _ & Hkeys).
  apply resize_loop_axes in Hloop'
    as [Hfree (axes & Haxes & Hall)]; [|apply new_axis_names_NoDup].
  simpl in *. specialize (Hkeys (new_axis_names_NoDup _ _)).
  specialize (Hfree (lookup_empty _)).
  apply for_each_opop in Hpop.
  assert (popped = unclassified fig_layout) as ->.
  { subst popped. unfold unclassified. apply filter_iff_in.
    intros [k v] Hkv. simpl. rewrite Hold, list_elem_of_filter. split.
    - intros Hnot. destruct (classify k) eqn:Hc; [|done].
      destruct Hnot. split; [by eexists|].
      apply list_elem_of_fmap. by exists (k, v).
    - intros -> [[? [=]] _]. }
  rewrite oupdate_fresh in Hlayout.
  - apply update_each_app_inv in Hlayout as (kept & moved & -> & Hkept & Hmoved).
    exists (axes_remapping st), kept, moved. split_and!; [done..| |].
    + eapply Forall2_impl; [done|]. intros [k v] [k' v']. simpl.
      destruct (reassign_attributes v _); simpl; [|done]. by intros [= -> ->].
    + rewrite Haxes in Hmoved.
      eapply Forall2_trans; [|done..].
      intros tnv [k1 v1] [k' v'] Hres. simpl.
      destruct (reassign_attributes v1 _) eqn:Hre; simpl; [|done].
      intros [= -> ->]. by exists (k', v1).
  - rewrite Hkeys. apply new_axis_names_NoDup.
  - intros k. rewrite Hkeys. intros ([t n] & -> & _)%list_elem_of_fmap.
    unfold okeys, unclassified.
    intros ([k v] & Hk & [Hnone _]%list_elem_of_filter)%list_elem_of_fmap.
    simpl in *. subst k. unfold new_axis_name in Hnone. simpl in Hnone.
    by rewrite classify_new_axis in Hnone.
Qed.

Lemma reassign_attribute_spec attr (remap : remapping) v v' :
  reassign_attribute attr remap v = Ok v' →
  match v with
  | VDict d =>
      ∃ d', v' = VDict d'
            ∧ (∀ g, g ≠ attr → d' !! g = d !! g)
            ∧ (remap !! "free" = None → d !! attr = Some (VStr "free") →
               d' !! attr = Some (VStr "free"))
  | VNone | VBool _ | VNum _ => False
  | _ => v' = v
  end.
Proof.
  unfold reassign_attribute. destruct v as [| | |s|l|d]; simpl; try done.
  - destruct (is_substring attr s); simpl; [done|by intros [= <-]].
  - destruct (existsb (is_VStr attr) l); simpl; [done|by intros [= <-]].
  - case_bool_decide as Hsome; simpl; [|intros [= <-]; by exists d].
    destruct (d !! attr) as [a|] eqn:Ha; simpl; [|by destruct Hsome].
    destruct (remap_contains remap a) as [[]|] eqn:Hknown; simpl;
      [|intros [= <-]; exists d; by rewrite Ha|done].
    destruct (remap_lookup remap a) as [new|]; simpl; [|done].
    intros [= <-]. exists (<[attr := VStr new]> d). split; [done|]. split.
    + intros g Hg. by rewrite lookup_insert_ne.
    + intros Hfree [= ->]. simpl in Hknown. rewrite Hfree in Hknown.
      by injection Hknown.
Qed.

Lemma reassign_attributes_spec (remap : remapping) v v' :
  remap !! "free" = None →
  reassign_attributes v remap = Ok v' →
  scalar v = false ∧ kept_entry v v'.
Proof.
  intros Hfree. unfold reassign_attributes.
  destruct (reassign_attribute "anchor" remap v) as [v1|] eqn:H1;
    simpl; [|done].
  intros H2. apply reassign_attribute_spec in H1, H2.
  destruct v as [| | |s|l|d]; try done; try (subst v1; by subst v').
  destruct H1 as (d1 & -> & F1 & K1), H2 as (d2 & -> & F2 & K2).
  split; [done|]. exists d2. split; [done|]. split.
  - intros g. unfold attributes. rewrite !not_elem_of_cons. intros (? & ? & _).
    by rewrite F2, F1.
  - intros attr. unfold attributes. rewrite !elem_of_cons, elem_of_nil.
    intros [->|[->|[]]] Hattr.
    + rewrite F2 by done. by apply K1.
    + apply K2; [done|]. by rewrite F1.
Qed.

Lemma resize_xy_axis_frame (obj obj' : pydict) nd which k :
  resize_xy_axis obj nd which = Ok obj' →
  k ≠ "domain" → k ≠ "position" → obj' !! k = obj !! k.
Proof.
  intros Hres Hd Hp. unfold resize_xy_axis in Hres.
  destruct (subscript (VDict obj) "domain") as [dom|]; simpl in Hres; [|done].
  unfold try_except in Hres.
  destruct (decide (which = "x"));
    match type of Hres with
    | context [xy_axis_update ?a ?b ?c ?d] =>
        destruct (xy_axis_update a b c d) as [u|] eqn:Hup; simpl in Hres
    end;
    try (case_decide; [|done]); injection Hres as <-; try done;
    apply lookup_union_r; eapply xy_axis_update_keys; eauto.
Qed.

Lemma resized_axis_frame nd tnv kv :
  resized_axis nd tnv kv →
  kv.1 = new_axis_name tnv.1
  ∧ ∃ d d1 : pydict, tnv.2 = VDict d ∧ kv.2 = VDict d1
                     ∧ same_but ["domain"; "position"] d d1.
Proof.
  intros [Hk (d & d1 & old & num & names & Hd & Hres & Hd1)].
  split; [done|]. exists d, d1. split; [done|]. split; [done|].
  intros g. rewrite !not_elem_of_cons. intros (? & ? & _).
  unfold resize_axis in Hres. destruct (which_of tnv.1.1).
  - destruct (resize_xy_axis _ _ _) eqn:Hxy; simpl in Hres; [|done].
    injection Hres as <- _. by eapply resize_xy_axis_frame.
  - destruct (resize_domain _ _) eqn:Hdom; simpl in Hres; [|done].
    injection Hres as <- _. by eapply resize_domain_frame.
Qed.

(** X16: when [resize] with a non-empty box returns, the layout starts
    with the entries that are no axes, under their keys and in their
    order: a dict among them differs from the original under ["anchor"]
    and ["overlaying"] at most, where ["free"] stays, and any other value
    is as it was. *)
Theorem resize_keeps_other_entries fig_data fig_layout nd start
    fig_data' fig_layout' start' :
  nd ≠ ∅ →
  resize fig_data fig_layout nd start = Ok (fig_data', fig_layout', start') →
  Forall2 (λ kv kv', kv'.1 = kv.1 ∧ kept_entry kv.2 kv'.2)
    (unclassified fig_layout)
    (take (length (unclassified fig_layout)) fig_layout').
Proof.
  intros Hnd Hres.
  destruct (resize_layout_spec _ _ _ _ _ _ _ Hnd Hres)
    as (remap & kept & axes & Hfree & -> & Hkept & _).
  rewrite (Forall2_length _ _ _ Hkept), take_app_length.
  eapply Forall2_impl; [done|]. intros kv kv' [Hk Hre]. split; [done|].
  by eapply reassign_attributes_spec.
Qed.

(** X17: when [resize] with a non-empty box returns, the axes follow the
    other entries in the order of the original layout, each under the key
    of its family and new number: an axis is still a dict, differs from
    the original under ["domain"], ["position"], ["anchor"] and
    ["overlaying"] at most, and an anchor or overlay that was ["free"]
    still is. *)
Theorem resize_moves_axes fig_data fig_layout nd start
    fig_data' fig_layout' start' :
  nd ≠ ∅ →
  resize fig_data fig_layout nd start = Ok (fig_data', fig_layout', start') →
  Forall2 (λ tnv kv', kv'.1 = new_axis_name tnv.1 ∧ moved_axis tnv.2 kv'.2)
    (numbered_axes start fig_layout)
    (drop (length (unclassified fig_layout)) fig_layout').
Proof.
  intros Hnd Hres.
  destruct (resize_layout_spec _ _ _ _ _ _ _ Hnd Hres)
    as (remap & kept & axes & Hfree & -> & Hkept & Haxes).
  rewrite (Forall2_length _ _ _ Hkept), drop_app_length.
  eapply Forall2_impl; [done|].
  intros tnv kv' (kv1 & Hres1 & Hk & Hre).
  apply resized_axis_frame in Hres1 as [Hk1 (d & d1 & Hd & Hd1 & Hsame)].
  split; [congruence|].
  apply (reassign_attributes_spec _ _ _ Hfree) in Hre as [_ Hre].
  rewrite Hd1 in Hre. destruct Hre as (d' & Hd' & Hsame' & Hkeeps).
  exists d, d'. split; [done|]. split; [done|]. split.
  - intros g Hg. rewrite Hsame', Hsame; [done|set_solver..].
  - intros attr Hattr Hd0. apply Hkeeps; [done|].
    rewrite Hsame; [done|].
    revert Hattr. unfold attributes.
    rewrite !not_elem_of_cons, !elem_of_cons, elem_of_nil. naive_solver.
Qed.

(** X18: a layout entry that is no axis and whose value is [None], a
    boolean or a number makes [resize] with a non-empty box raise: the
    last loop tests ['anchor' in axis] on every value of the layout. *)
Theorem resize_rejects_scalar_entries fig_data fig_layout nd start k v :
  nd ≠ ∅ →
  (k, v) ∈ fig_layout →
  classify k = None →
  scalar v = true →
  ∃ e, resize fig_data fig_layout nd start = Raise e.
Proof.
  intros Hnd Hin Hc Hv.
  destruct (resize fig_data fig_layout nd start)
    as [[[fig_data' fig_layout'] start']|e] eqn:Hres; [|by eexists].
  destruct (resize_layout_spec _ _ _ _ _ _ _ Hnd Hres)
    as (remap & kept & axes & Hfree & _ & Hkept & _).
  assert ((k, v) ∈ unclassified fig_layout) as [i Hi]%list_elem_of_lookup
    by by apply list_elem_of_filter.
  destruct (Forall2_lookup_l _ _ _ _ _ Hkept Hi) as (kv' & _ & _ & Hre).
  apply (reassign_attributes_spec _ _ _ Hfree) in Hre as [Hs _].
  simpl in Hs. congruence.
Qed.

Lemma box_x_nonempty : box_x ≠ ∅.
Proof. intros H. apply (f_equal (lookup "x")) in H. by vm_compute in H. Qed.

Lemma resize_keeps_other_entries_witness :
  ∃ fig_data' fig_layout' start',
    resize (data free_figure) (layout free_figure) box_x initial_axes_start
      = Ok (fig_data', fig_layout', start')
    ∧ Forall2 (λ kv kv', kv'.1 = kv.1 ∧ kept_entry kv.2 kv'.2)
        [("title", VDict {[ "text" := VStr "t" ]})]
        (take 1 fig_layout').
Proof.
  assert (∃ d l c, resize (data free_figure) (layout free_figure) box_x
                     initial_axes_start = Ok (d, l, c))
    as (d & l & c & Hres) by (do 3 eexists; vm_compute; reflexivity).
  exists d, l, c. split; [done|].
  apply (resize_keeps_other_entries _ _ _ _ _ _ _ box_x_nonempty Hres).
Defined.

Lemma resize_moves_axes_witness :
  ∃ fig_data' fig_layout' start',
    resize (data free_figure) (layout free_figure) box_x initial_axes_start
      = Ok (fig_data', fig_layout', start')
    ∧ Forall2 (λ tnv kv', kv'.1 = new_axis_name tnv.1
                          ∧ moved_axis tnv.2 kv'.2)
        [(Xaxis, 1%Z, xy_axis "y"); (Yaxis, 1%Z, xy_axis "x");
         (Xaxis, 2%Z, xy_axis "free")]
        (drop 1 fig_layout').
Proof.
  assert (∃ d l c, resize (data free_figure) (layout free_figure) box_x
                     initial_axes_start = Ok (d, l, c))
    as (d & l & c & Hres) by (do 3 eexists; vm_compute; reflexivity).
  exists d, l, c. split; [done|].
  apply (resize_moves_axes _ _ _ _ _ _ _ box_x_nonempty Hres).
Defined.

Lemma resize_rejects_scalar_entries_witness :
  ∃ e, resize (data legend_figure) (layout legend_figure) box_x
         initial_axes_start = Raise e.
Proof.
  apply (resize_rejects_scalar_entries _ _ _ _ "showlegend" (VBool true));
    [apply box_x_nonempty| |done..].
  simpl. rewrite !elem_of_cons. tauto.
Defined.

(** ** Argument validators *)

(** X19: [remap_scene_args] cannot be run twice on one dict: whatever the
    first call did, a second call on the dict it leaves raises [KeyError]
    at the first name and changes nothing. *)
Theorem remap_scene_args_second_call (args : pydict) :
  remap_scene_args (remap_scene_args args).1
  = ((remap_scene_args args).1, Some KeyError).
Proof.
  assert ((remap_scene_args args).1 !! "range_x" = None) as Hgone.
  { unfold remap_scene_args.
    destruct (first_missing scene_args args)
      as [Hall|(pre & a & post & Hsplit & Hpre & Ha)].
    - destruct (remap_scene_loop_all scene_args scene_args_NoDup
                  scene_args_suffixed_NoDup scene_args_apart args Hall)
        as [_ [Hren _]].
      apply Hren. unfold scene_args. apply elem_of_cons. by left.
    - destruct pre as [|b pre].
      + injection Hsplit as <- _. simpl. by rewrite Ha.
      + injection Hsplit as <- Hrest.
        destruct (remap_scene_loop_missing scene_args ("range_x" :: pre) a post
                    args scene_args_NoDup scene_args_suffixed_NoDup
                    scene_args_apart) as [_ [Hren _]];
          [unfold scene_args; simpl; by f_equal|done..|].
        apply Hren, elem_of_cons. by left. }
  unfold remap_scene_args at 1. unfold scene_args at 1. simpl.
  by rewrite Hgone.
Qed.

(** ** Legend and titles *)

Lemma title_key_not_showlegend var : var +:+ "axis_title_text" ≠ "showlegend".
Proof. intros H. peel H var. Qed.

Lemma title_key_not_legend_title var :
  var +:+ "axis_title_text" ≠ "legend_title_text".
Proof. intros H. peel H var. Qed.

Lemma title_key_not_legend_gap var :
  var +:+ "axis_title_text" ≠ "legend_tracegroupgap".
Proof. intros H. peel H var. Qed.

Lemma title_keys_apart var :
  other_var var +:+ "axis_title_text" ≠ var +:+ "axis_title_text".
Proof.
  unfold other_var. case_decide as Hx; [by subst|].
  intros H. symmetry in H. peel H var. by subst.
Qed.

Lemma lookup_set_title key name (d : pydict) k :
  set_title key name d !! k
  = if decide (key = k) then
      match title_of name with Some v => Some v | None => d !! k end
    else d !! k.
Proof.
  unfold set_title, title_of. destruct name as [[|c s]|]; simpl.
  - by case_decide.
  - case_decide as Hk; [subst; by rewrite lookup_insert_eq|].
    by rewrite lookup_insert_ne.
  - by case_decide.
Qed.

(** X21: the layout update that [update_legend_and_titles] builds.  The
    title of the [var] axis and the title of the other axis are stored
    under two different keys, so neither replaces the other; each is
    there only when its name is neither [None] nor empty; the names of
    the mode that is not in use are ignored; and the legend is hidden
    exactly when the columns were not given as a list, in which case no
    legend title is set. *)
Theorem update_legend_and_titles_layout (var : string) (is_list : bool)
    (list_var list_val str_var str_val : option string) :
  let d := layout_update var is_list list_var list_val str_var str_val in
  d !! (var +:+ "axis_title_text")
    = title_of (if is_list then list_var else str_var)
  ∧ d !! (other_var var +:+ "axis_title_text")
    = title_of (if is_list then list_val else str_val)
  ∧ d !! "showlegend" = (if is_list then None else Some (VBool false))
  ∧ d !! "legend_title_text"
    = (if is_list then Some (VStr "variable") else None).
Proof.
  pose proof (title_keys_apart var) as Hapart.
  pose proof (title_key_not_showlegend var) as Hs1.
  pose proof (title_key_not_showlegend (other_var var)) as Hs2.
  pose proof (title_key_not_legend_title var) as Ht1.
  pose proof (title_key_not_legend_title (other_var var)) as Ht2.
  pose proof (title_key_not_legend_gap var) as Hg1.
  pose proof (title_key_not_legend_gap (other_var var)) as Hg2.
  unfold layout_update. fold (other_var var).
  destruct is_list; simpl; rewrite !lookup_set_title;
    split_and!; repeat case_decide; try congruence;
    rewrite ?lookup_insert_ne by done;
    rewrite ?lookup_insert_eq, ?lookup_empty;
    try done; by destruct (title_of _).
Qed.

(** ** Axis numbering over a composition *)

Lemma axis_keys_oset {V} type_ k (v : V) (d : odict V) :
  axis_keys type_ (okeys (oset k v d))
  = if decide (classify k = Some type_ ∧ k ∉ okeys d)
    then axis_keys type_ (okeys d) ++ [k]
    else axis_keys type_ (okeys d).
Proof.
  unfold axis_keys. induction d as [|[k0 v0] d IH]; cbn [oset].
  - change (okeys [(k, v)]) with [k]. change (okeys (@nil (string * V))) with (@nil string).
    rewrite filter_cons, filter_nil.
    destruct (decide (classify k = Some type_)).
    + by rewrite decide_True by (split; [done|apply not_elem_of_nil]).
    + by rewrite decide_False by tauto.
  - change (okeys ((k0, v0) :: d)) with (k0 :: okeys d).
    destruct (decide (k0 = k)) as [->|Hne].
    + change (okeys ((k, v) :: d)) with (k :: okeys d).
      rewrite decide_False; [done|]. rewrite not_elem_of_cons. tauto.
    + change (okeys ((k0, v0) :: oset k v d)) with (k0 :: okeys (oset k v d)).
      rewrite !filter_cons, IH.
      assert ((classify k = Some type_ ∧ k ∉ k0 :: okeys d)
              ↔ (classify k = Some type_ ∧ k ∉ okeys d)) as Hiff
        by (rewrite not_elem_of_cons; naive_solver).
      repeat case_decide; try done; exfalso; tauto.
Qed.

Lemma axis_keys_cons type_ k keys :
  axis_keys type_ (k :: keys)
  = if decide (classify k = Some type_) then k :: axis_keys type_ keys
    else axis_keys type_ keys.
Proof. unfold axis_keys. by rewrite filter_cons. Qed.

Lemma axis_keys_app type_ keys1 keys2 :
  axis_keys type_ (keys1 ++ keys2)
  = axis_keys type_ keys1 ++ axis_keys type_ keys2.
Proof. unfold axis_keys. by rewrite filter_app. Qed.

Lemma axis_keys_oupdate {V} type_ (d other : odict V) :
  (∀ k, k ∈ axis_keys type_ (okeys other) → k ∉ okeys d) →
  NoDup (axis_keys type_ (okeys other)) →
  axis_keys type_ (okeys (oupdate d other))
  = axis_keys type_ (okeys d) ++ axis_keys type_ (okeys other).
Proof.
  unfold oupdate. revert d.
  induction other as [|[k0 v0] other IH]; intros d Hfresh Hnd; simpl.
  { by rewrite app_nil_r. }
  change (okeys ((k0, v0) :: other)) with (k0 :: okeys other) in *.
  rewrite axis_keys_cons in Hfresh, Hnd |- *.
  destruct (decide (classify k0 = Some type_)) as [Hk0|Hk0].
  - apply NoDup_cons in Hnd as [Hnew Hnd].
    assert (k0 ∉ okeys d) as Hd by (apply Hfresh, elem_of_cons; by left).
    rewrite IH, axis_keys_oset, decide_True, <-(assoc_L (++)); try done.
    intros k Hk. rewrite elem_of_okeys_oset. intros [->|Hin]; [done|].
    revert Hin. apply Hfresh, elem_of_cons. by right.
  - rewrite IH, axis_keys_oset, decide_False; try done; try tauto.
    intros k Hk. rewrite elem_of_okeys_oset. intros [->|Hin].
    + by apply list_elem_of_filter in Hk as [? _].
    + revert Hin. by apply Hfresh.
Qed.

Lemma axis_keys_new_names type_ (l : list (family * Z)) :
  axis_keys type_ (new_axis_name <$> l) = new_axis_name <$> of_family type_ l.
Proof.
  unfold axis_keys, of_family. induction l as [|[t n] l IH]; [done|].
  rewrite fmap_cons, !filter_cons, IH.
  assert (classify (new_axis_name (t, n)) = Some t) as ->
    by apply classify_new_axis.
  simpl. destruct (decide (t = type_)) as [->|Hne].
  - by rewrite decide_True.
  - by rewrite decide_False by congruence.
Qed.

Lemma axis_keys_unclassified type_ keys :
  axis_keys type_ (filter (λ k, classify k = None) keys) = [].
Proof.
  unfold axis_keys. induction keys as [|k keys IH]; [done|].
  rewrite (filter_cons (λ k, classify k = None)).
  destruct (decide (classify k = None)) as [Hk|Hk]; [|done].
  by rewrite filter_cons_False by congruence.
Qed.

Lemma family_count_app type_ keys1 keys2 :
  family_count type_ (keys1 ++ keys2)
  = (family_count type_ keys1 + family_count type_ keys2)%nat.
Proof. unfold family_count. by rewrite filter_app, length_app. Qed.

(** The keys that one call of [resize] gives to the axes of a family. *)
Lemma resize_axis_keys type_ fig_data fig_layout nd start
    fig_data' fig_layout' start' :
  nd ≠ ∅ →
  resize fig_data fig_layout nd start = Ok (fig_data', fig_layout', start') →
  axis_keys type_ (okeys fig_layout')
  = new_axis_name
      <$> (pair type_
             <$> seqZ (start_of type_ start)
                   (Z.of_nat (family_count type_ (okeys fig_layout))))
  ∧ start_of type_ start'
    = (start_of type_ start
       + Z.of_nat (family_count type_ (okeys fig_layout)))%Z.
Proof.
  intros Hnd Hres.
  destruct (resize_spec _ _ _ _ _ _ _ Hnd Hres) as (_ & -> & -> & _).
  destruct (numbering_family type_ start (okeys fig_layout))
    as (n & Hn & Hfam & Hstart).
  rewrite start_after_count in Hstart |- *.
  assert (n = Z.of_nat (family_count type_ (okeys fig_layout))) as <- by lia.
  split; [|done].
  by rewrite axis_keys_app, axis_keys_unclassified, axis_keys_new_names, Hfam.
Qed.

Lemma numbered_keys_app type_ (m c : nat) :
  numbered_keys type_ (m + c)
  = numbered_keys type_ m
    ++ (new_axis_name
          <$> (pair type_ <$> seqZ (1 + Z.of_nat m) (Z.of_nat c))).
Proof.
  unfold numbered_keys. by rewrite Nat2Z.inj_add, seqZ_app, !fmap_app by lia.
Qed.

Lemma numbered_keys_fresh type_ (m c : nat) k :
  k ∈ new_axis_name <$> (pair type_ <$> seqZ (1 + Z.of_nat m) (Z.of_nat c)) →
  k ∉ numbered_keys type_ m.
Proof.
  unfold numbered_keys. rewrite <-!list_fmap_compose.
  intros (z & -> & Hz)%list_elem_of_fmap (z' & Heq & Hz')%list_elem_of_fmap.
  simpl in Heq. apply (inj new_axis_name) in Heq as [= ->].
  apply elem_of_seqZ in Hz, Hz'. lia.
Qed.

Section Numbering.

Context {DataMapping : Type}.
Context (copy_mappings : DeephavenFigure DataMapping → nat → list DataMapping).

Implicit Types (args : list (arg DataMapping)) (st : layer_state DataMapping).

(** The loop of [layer] keeps the axis keys of a family numbered from 1
    without a gap, when every input is resized into a non-empty box. *)
Lemma layer_loop_axis_keys type_ which_layout (ds : list domain_box) i args
    st st' (m : nat) :
  ds ≠ [] →
  Forall (λ nd, nd ≠ ∅) ds →
  layer_loop copy_mappings which_layout (Some ds) i args st = Ok st' →
  start_of type_ (layer_axes_start st) = (1 + Z.of_nat m)%Z →
  axis_keys type_ (okeys (new_layout st)) = numbered_keys type_ m →
  axis_keys type_ (okeys (new_layout st'))
  = numbered_keys type_ (m + family_count type_ (composition_keys args)).
Proof.
  intros Hds Hboxes. revert i st m.
  induction args as [|a args IH]; intros i st m.
  { intros [= <-] _ ->. unfold composition_keys, family_count. simpl.
    by rewrite Nat.add_0_r. }
  intros Hloop Hstart Hkeys. cbn [layer_loop] in Hloop.
  destruct (layer_step _ _ _ i a st) as [st1|] eqn:Hstep; [|done].
  simpl in Hloop.
  apply layer_step_inv in Hstep
    as (_ & f & fd & fl & Hf & Hfig & _ & Hlayout & _).
  apply arg_figure_data in Hf as [_ Hf].
  unfold fig_data_and_layout in Hfig.
  destruct ds as [|nd0 ds']; [done|]. unfold index in Hfig.
  destruct ((nd0 :: ds') !! i) as [nd|] eqn:Hnd; simpl in Hfig; [|done].
  assert (nd ≠ ∅) as Hbox by by eapply (Forall_lookup_1 _ _ _ _ Hboxes).
  destruct (resize_axis_keys type_ _ _ _ _ _ _ _ Hbox Hfig) as [Hnew Hstart'].
  rewrite Hstart, Hf in Hnew, Hstart'.
  set (c := family_count type_ (okeys (arg_layout a))) in *.
  unfold composition_keys. rewrite fmap_cons. simpl.
  fold (composition_keys args). rewrite family_count_app. fold c.
  rewrite (assoc_L Nat.add). apply (IH (S i) st1).
  - done.
  - rewrite Hstart'. lia.
  - rewrite Hlayout, axis_keys_oupdate, Hkeys, Hnew.
    + by rewrite numbered_keys_app.
    + intros k Hk Hin. rewrite Hnew in Hk.
      apply (numbered_keys_fresh _ _ _ _ Hk). rewrite <-Hkeys.
      apply list_elem_of_filter. split; [|done].
      apply list_elem_of_fmap in Hk as (tn & -> & Htn).
      apply list_elem_of_fmap in Htn as (z & -> & _).
      unfold new_axis_name. simpl. apply classify_new_axis.
    + rewrite Hnew. apply numbers_NoDup.
Qed.

(** C2, amended: when every input of a composition is resized into a
    non-empty domain box, the keys of one axis family in the layout that
    [layer] returns are exactly [type_], [type_2], ..., [type_n], in this
    order, where [n] is the number of axes of the family over all
    inputs: they are pairwise distinct and the first of them is the
    family name without a numeral. *)
Theorem axis_numbering_unique type_ which_layout (ds : list domain_box)
    args r :
  ds ≠ [] →
  Forall (λ nd, nd ≠ ∅) ds →
  layer copy_mappings args which_layout (Some ds) default_callback = Ok r →
  let keys := axis_keys type_ (okeys (layout (fig r))) in
  keys = numbered_keys type_ (family_count type_ (composition_keys args))
  ∧ NoDup keys
  ∧ (∀ k, head keys = Some k → k = family_name type_).
Proof.
  intros Hds Hboxes Hlayer keys.
  assert (keys
          = numbered_keys type_ (family_count type_ (composition_keys args)))
    as Hkeys.
  { subst keys. unfold layer in Hlayer. case_decide; [done|].
    destruct (layer_loop _ _ _ 0 args _) as [st|] eqn:Hloop;
      simpl in Hlayer; [|done].
    injection Hlayer as <-. simpl.
    apply (layer_loop_axis_keys type_ _ _ _ _ _ _ 0 Hds Hboxes Hloop).
    - by destruct type_.
    - done. }
  split; [done|]. rewrite Hkeys. unfold numbered_keys. split.
  - apply numbers_NoDup.
  - intros k. destruct (family_count _ _) as [|n]; [done|].
    rewrite seqZ_cons by lia. simpl. intros [= <-].
    apply family_name_app_nil.
Qed.

End Numbering.

Lemma box_x_right_nonempty : box_x_right ≠ ∅.
Proof. intros H. apply (f_equal (lookup "x")) in H. by vm_compute in H. Qed.

Lemma axis_numbering_unique_witness :
  ∃ r, layer shift_mappings [ArgFigure xy_figure; ArgFigure xy_figure]
         None (Some [box_x; box_x_right]) default_callback = Ok r
       ∧ axis_keys Xaxis (okeys (layout (fig r))) = ["xaxis"; "xaxis2"].
Proof.
  assert (∃ r, layer shift_mappings [ArgFigure xy_figure; ArgFigure xy_figure]
                 None (Some [box_x; box_x_right]) default_callback = Ok r)
    as [r Hr] by (eexists; vm_compute; reflexivity).
  exists r. split; [done|].
  destruct (axis_numbering_unique shift_mappings Xaxis None
              [box_x; box_x_right] [ArgFigure xy_figure; ArgFigure xy_figure] r)
    as (-> & _); [done| |done|by vm_compute].
  repeat constructor; [apply box_x_nonempty|apply box_x_right_nonempty].
Defined.

(** C2, as stated, fails: an input whose domain box is empty is not
    renumbered.  Its first x axis keeps the key ["xaxis7"], and the key
    ["yaxis"] that the second input is newly given is the key that the
    first input's y axis already has, so the four axes of the
    composition are left with three keys. *)
Lemma empty_box_keeps_axis_keys :
  ∃ r, layer shift_mappings [ArgFigure high_figure; ArgFigure xy_figure]
         None (Some [∅; box_x_right]) default_callback = Ok r
       ∧ okeys (layout (fig r)) = ["xaxis7"; "yaxis"; "xaxis"]
       ∧ head (axis_keys Xaxis (okeys (layout (fig r)))) = Some "xaxis7"
       ∧ family_count Yaxis
           (composition_keys [ArgFigure high_figure; ArgFigure xy_figure
                              : arg nat]) = 2
       ∧ axis_keys Yaxis (okeys (layout (fig r))) = ["yaxis"].
Proof.
  eexists. split; [vm_compute; reflexivity|]. by vm_compute.
Qed.
